(** * Quadrotor dynamics and cascaded PD controller

    A shallow embedding of the two notebooks of the repository,
    [3 - Reworking.ipynb] and [5-Controller-Full.ipynb], and the properties
    their flight loop is specified to have.

    numpy's [float64] scalars are read as real numbers in the modules
    [Reworking] and [ControllerFull] and the cells they share: rounding is
    left out, the algebra of the control law is kept.  The module [Float64]
    reads the Euler step once more over IEEE binary64 values, where NaN and
    the infinities exist.  Arrays of shape (3,), (4,) and (3,3) are records; a
    Python exception is a [Raise] in the [result] type. *)

From Stdlib Require Import Reals Lra Psatz ZArith Bool.
From Stdlib Require Floats.

Local Open Scope R_scope.

(** ** Python exceptions *)

Inductive exn : Set :=
| AttributeError
| LinAlgError.

Inductive result (A : Type) : Type :=
| Ok (a : A)
| Raise (e : exn).

Arguments Ok {A} a.
Arguments Raise {A} e.

Definition bind {A B : Type} (r : result A) (k : A -> result B) : result B :=
  match r with
  | Ok a => k a
  | Raise e => Raise e
  end.

Declare Scope result_scope.
Delimit Scope result_scope with result.
Notation "x <- r ;; k" := (bind r (fun x => k))
  (at level 61, r at next level, right associativity) : result_scope.
Notation "' pat <- r ;; k" := (bind r (fun x => match x with pat => k end))
  (at level 61, pat pattern, r at next level, right associativity) : result_scope.

(** ** numpy arrays of fixed shape *)

(** [np.array([x, y, z])] *)
Record vec3 : Type := mkV3 { v0 : R; v1 : R; v2 : R }.

(** [np.array([a, b, c, d])] *)
Record vec4 : Type := mkV4 { w0 : R; w1 : R; w2 : R; w3 : R }.

(** A (3,3) array, by rows. *)
Record mat3 : Type := mkM3 { row0 : vec3; row1 : vec3; row2 : vec3 }.

Definition zeros3 : vec3 := mkV3 0 0 0.

Definition vadd (a b : vec3) : vec3 :=
  mkV3 (v0 a + v0 b) (v1 a + v1 b) (v2 a + v2 b).

Definition vsub (a b : vec3) : vec3 :=
  mkV3 (v0 a - v0 b) (v1 a - v1 b) (v2 a - v2 b).

(** scalar * array *)
Definition vscale (s : R) (a : vec3) : vec3 :=
  mkV3 (s * v0 a) (s * v1 a) (s * v2 a).

(** array * scalar *)
Definition vmuls (a : vec3) (s : R) : vec3 :=
  mkV3 (v0 a * s) (v1 a * s) (v2 a * s).

Definition dot3 (a b : vec3) : R :=
  v0 a * v0 b + v1 a * v1 b + v2 a * v2 b.

(** [np.cross(a, b)] *)
Definition cross (a b : vec3) : vec3 :=
  mkV3 (v1 a * v2 b - v2 a * v1 b)
       (v2 a * v0 b - v0 a * v2 b)
       (v0 a * v1 b - v1 a * v0 b).

(** [M @ v] *)
Definition matvec (m : mat3) (v : vec3) : vec3 :=
  mkV3 (dot3 (row0 m) v) (dot3 (row1 m) v) (dot3 (row2 m) v).

(** [np.diag([a, b, c])] *)
Definition diag (a b c : R) : mat3 :=
  mkM3 (mkV3 a 0 0) (mkV3 0 b 0) (mkV3 0 0 c).

Definition mscale (s : R) (m : mat3) : mat3 :=
  mkM3 (vscale s (row0 m)) (vscale s (row1 m)) (vscale s (row2 m)).

Definition det3 (m : mat3) : R := dot3 (row0 m) (cross (row1 m) (row2 m)).

(** The adjugate: its rows are the columns of cofactors. *)
Definition adjugate (m : mat3) : mat3 :=
  let c0 := cross (row1 m) (row2 m) in
  let c1 := cross (row2 m) (row0 m) in
  let c2 := cross (row0 m) (row1 m) in
  mkM3 (mkV3 (v0 c0) (v0 c1) (v0 c2))
       (mkV3 (v1 c0) (v1 c1) (v1 c2))
       (mkV3 (v2 c0) (v2 c1) (v2 c2)).

(** [np.linalg.inv(m)]: the inverse matrix, [LinAlgError] on a singular one. *)
Definition linalg_inv (m : mat3) : result mat3 :=
  if Req_dec_T (det3 m) 0 then Raise LinAlgError
  else Ok (mscale (/ det3 m) (adjugate m)).

(** [np.sum] and [np.square] on a (4,) array, and array * scalar. *)
Definition sum4 (a : vec4) : R := w0 a + w1 a + w2 a + w3 a.

Definition square4 (a : vec4) : vec4 :=
  mkV4 (w0 a * w0 a) (w1 a * w1 a) (w2 a * w2 a) (w3 a * w3 a).

Definition scale4 (s : R) (a : vec4) : vec4 :=
  mkV4 (s * w0 a) (s * w1 a) (s * w2 a) (s * w3 a).

Definition dot4 (a b : vec4) : R :=
  w0 a * w0 b + w1 a * w1 b + w2 a * w2 b + w3 a * w3 b.

Definition norm4 (a : vec4) : R := sqrt (dot4 a a).

(** ** [sym.Rot3]

    The rotation class of the symforce package, which both notebooks import.
    A [Rot3] is its storage, four numbers in xyzw order; [from_storage] wraps
    any four numbers without normalising them (this is what lets [dRot3] carry
    a rate in a [Rot3]).  The operations the notebooks call are the closed
    forms of the Hamilton quaternion. *)

Record Rot3 : Type := from_storage { to_storage : vec4 }.

Definition qx (r : Rot3) : R := w0 (to_storage r).
Definition qy (r : Rot3) : R := w1 (to_storage r).
Definition qz (r : Rot3) : R := w2 (to_storage r).
Definition qw (r : Rot3) : R := w3 (to_storage r).

Definition quat (x y z w : R) : Rot3 := from_storage (mkV4 x y z w).

Definition identity : Rot3 := quat 0 0 0 1.

(** [a.compose(b)]: the quaternion product [a * b]. *)
Definition compose (a b : Rot3) : Rot3 :=
  quat (qw a * qx b + qx a * qw b + qy a * qz b - qz a * qy b)
       (qw a * qy b - qx a * qz b + qy a * qw b + qz a * qx b)
       (qw a * qz b + qx a * qy b - qy a * qx b + qz a * qw b)
       (qw a * qw b - qx a * qx b - qy a * qy b - qz a * qz b).

(** [r.inverse()]: the conjugate. *)
Definition inverse (r : Rot3) : Rot3 :=
  quat (- qx r) (- qy r) (- qz r) (qw r).

(** [r.to_rotation_matrix()], body to world. *)
Definition to_rotation_matrix (r : Rot3) : mat3 :=
  let x := qx r in let y := qy r in let z := qz r in let w := qw r in
  mkM3 (mkV3 (1 - 2 * (y * y) - 2 * (z * z)) (2 * x * y - 2 * z * w) (2 * x * z + 2 * y * w))
       (mkV3 (2 * x * y + 2 * z * w) (1 - 2 * (x * x) - 2 * (z * z)) (2 * y * z - 2 * x * w))
       (mkV3 (2 * x * z - 2 * y * w) (2 * y * z + 2 * x * w) (1 - 2 * (x * x) - 2 * (y * y))).

(** [Rot3.from_yaw_pitch_roll(yaw, pitch, roll)]: the rotation about z by
    [yaw], after the one about y by [pitch], after the one about x by [roll]. *)
Definition from_yaw_pitch_roll (yaw pitch roll : R) : Rot3 :=
  let sy := sin (yaw / 2) in let cy := cos (yaw / 2) in
  let sp := sin (pitch / 2) in let cp := cos (pitch / 2) in
  let sr := sin (roll / 2) in let cr := cos (roll / 2) in
  quat (sr * cp * cy - cr * sp * sy)
       (cr * sp * cy + sr * cp * sy)
       (cr * cp * sy - sr * sp * cy)
       (cr * cp * cy + sr * sp * sy).

(** [math.atan2(y, x)] *)
Definition atan2 (y x : R) : R :=
  match total_order_T x 0 with
  | inleft (left _) => if Rlt_dec y 0 then atan (y / x) - PI else atan (y / x) + PI
  | inleft (right _) =>
      match total_order_T y 0 with
      | inleft (left _) => - (PI / 2)
      | inleft (right _) => 0
      | inright _ => PI / 2
      end
  | inright _ => atan (y / x)
  end.

(** [r.to_yaw_pitch_roll()[0]], the yaw angle of the z-y-x decomposition. *)
Definition to_yaw (r : Rot3) : R :=
  let x := qx r in let y := qy r in let z := qz r in let w := qw r in
  atan2 (2 * x * y + 2 * w * z) (x * x + w * w - z * z - y * y).

(** ** Cells shared by the two notebooks *)

(** [dRot3(R, omega)]: the rate dq/dt of the storage of [R] under the body
    angular velocity [omega], wrapped in a [Rot3]. *)
Definition dRot3 (R_ : Rot3) (omega : vec3) : Rot3 :=
  let q0 := qx R_ in let q1 := qy R_ in let q2 := qz R_ in let q3 := qw R_ in
  (* rows of G *)
  let G0 := mkV4 q3 q2 (- q1) (- q0) in
  let G1 := mkV4 (- q2) q3 q0 (- q1) in
  let G2 := mkV4 q1 (- q0) q3 (- q2) in
  (* G.T @ omega *)
  let GT_omega :=
    mkV4 (w0 G0 * v0 omega + w0 G1 * v1 omega + w0 G2 * v2 omega)
         (w1 G0 * v0 omega + w1 G1 * v1 omega + w1 G2 * v2 omega)
         (w2 G0 * v0 omega + w2 G1 * v1 omega + w2 G2 * v2 omega)
         (w3 G0 * v0 omega + w3 G1 * v1 omega + w3 G2 * v2 omega) in
  let quat_dot := mkV4 (w0 GT_omega / 2) (w1 GT_omega / 2)
                       (w2 GT_omega / 2) (w3 GT_omega / 2) in
  from_storage quat_dot.

(** The dataclass [Params]. *)
Record Params : Type := mkParams {
  mass : R;
  inertia : mat3;
  rotor_diameter : R;
  static_thrust_coefficient : R;
  static_torque_coefficient : R;
  arm_length : R;
  g : R;
  rho : R
}.

Definition rotor_model (self : Params) (static_coefficient : R) : R :=
  rho self * static_coefficient * (rotor_diameter self ^ 4) / (4 * PI ^ 2).

Definition k_thrust (self : Params) : R :=
  rotor_model self (static_thrust_coefficient self).

Definition k_torque (self : Params) : R :=
  rotor_model self (static_torque_coefficient self).

(** [p = Params()], the field defaults. *)
Definition p : Params :=
  {| mass := 1.352;
     inertia := mkM3 (mkV3 9.8e-3 0 0) (mkV3 0 10.02e-3 0) (mkV3 0 0 18.6e-3);
     rotor_diameter := 10 * 0.0254;
     static_thrust_coefficient := 0.14553;
     static_torque_coefficient := 0.01047;
     arm_length := 0.3814 / 2.0;
     g := 9.80665;
     rho := 1.225 |}.

(** ** Types of the [quadrotor] package *)

(** Modelled from the spec: the class [QuadrotorState] of [quadrotor.dynamics]
    is imported by the notebooks, not defined in them.  Its four fields are
    the "vehicle state" of the data model: position and velocity in the world
    frame, orientation body to world, angular velocity in the body frame. *)
Module QuadrotorState.
Record t : Type := mk {
  position : vec3;
  velocity : vec3;
  orientation : Rot3;
  angular_velocity : vec3
}.
End QuadrotorState.

(** Modelled from the spec: the class [QuadrotorCommands] of
    [quadrotor.controller] is imported, not defined.  The data model has a
    command be "either four rotor angular rates, or a pre-mixed collective
    thrust scalar u1 plus a body-torque 3-vector u2"; the first notebook
    builds and reads the former, the second one the latter.  (The run recorded
    in the second notebook stops in the constructor call of [Controller.step]:
    the package's class takes the rotor rates only.) *)
Module QuadrotorCommands.
Inductive t : Type :=
| of_rotor_rates (rotor_rates : vec4)
| of_thrust_torque (u1 : R) (u2 : vec3).

(** Reading an attribute the object does not have raises. *)
Definition rotor_rates (c : t) : result vec4 :=
  match c with
  | of_rotor_rates r => Ok r
  | of_thrust_torque _ _ => Raise AttributeError
  end.

Definition u1 (c : t) : result R :=
  match c with
  | of_thrust_torque u _ => Ok u
  | of_rotor_rates _ => Raise AttributeError
  end.

Definition u2 (c : t) : result vec3 :=
  match c with
  | of_thrust_torque _ u => Ok u
  | of_rotor_rates _ => Raise AttributeError
  end.
End QuadrotorCommands.

(** Modelled from the spec: the class [TrajectoryState] of
    [quadrotor.trajectory], a "trajectory sample": a time stamp, the desired
    position, yaw and yaw rate. *)
Module TrajectoryState.
Record t : Type := mk {
  time : R;
  position : vec3;
  yaw : R;
  yaw_rate : R
}.
End TrajectoryState.

(** Modelled from the spec: the attributes a dynamics object inherits from
    [QuadrotorDynamicsBase], the timestep [dt] its driver configured and the
    live vehicle [state]. *)
Module QuadrotorDynamicsBase.
Record t : Type := mk {
  dt : R;
  state : QuadrotorState.t
}.
End QuadrotorDynamicsBase.

(** ** Notebook [3 - Reworking.ipynb] *)

Module Reworking.
Import QuadrotorState.
Local Open Scope result_scope.

Module FullQuadrotorDynamics.

(** The rates are read as real numbers: [np.square] is exact on them up to
    rounding for a float64 array, and for an int64 array as long as the
    squares stay below 2^63. *)
Definition rotor_thrust_model (rotor_rates : vec4) : vec4 :=
  let thrust := scale4 (k_thrust p) (square4 rotor_rates) in
  thrust.

(** The two mixed commands [step] computes from the rotor rates. *)
Definition mix_u1 (rotor_rates : vec4) : vec3 :=
  let thrusts := rotor_thrust_model rotor_rates in
  mkV3 0 0 (sum4 thrusts).

Definition mix_u2 (rotor_rates : vec4) : vec3 :=
  let thrusts := rotor_thrust_model rotor_rates in
  mkV3 (arm_length p * (w0 thrusts - w2 thrusts))
       (arm_length p * (w1 thrusts - w3 thrusts))
       (k_torque p * (w0 rotor_rates - w1 rotor_rates
                      + w2 rotor_rates - w3 rotor_rates)).

Definition state_derivative (state : QuadrotorState.t) (u1 u2 : vec3)
  : result QuadrotorState.t :=
  let R_ := to_rotation_matrix (orientation state) in
  let gravity := mkV3 0 0 (- g p) in
  let accel := vscale (1 / mass p)
                      (vadd (matvec R_ u1) (vscale (mass p) gravity)) in
  let omega := angular_velocity state in
  inertia_inv <- linalg_inv (inertia p) ;;
  let angular_accel :=
    matvec inertia_inv (vsub u2 (cross omega (matvec (inertia p) omega))) in
  Ok {| position := velocity state;
        velocity := accel;
        orientation := dRot3 (orientation state) omega;
        angular_velocity := angular_accel |}.

Section Step.
(** [sp.integrate.solve_ivp(fun, t_span, y0, method='RK45').y[:, -1]]:
    scipy's adaptive solver, kept abstract.  The 13-element state vector
    is carried as the [QuadrotorState] it packs; a right-hand side that
    raises makes the solve raise. *)
Variable solve_ivp_RK45 :
  (R -> QuadrotorState.t -> result QuadrotorState.t) -> R * R ->
  QuadrotorState.t -> result QuadrotorState.t.

(** Returns the object with its [state] replaced, and that state. *)
Definition step (self : QuadrotorDynamicsBase.t) (t : R)
           (input : QuadrotorCommands.t)
  : result (QuadrotorDynamicsBase.t * QuadrotorState.t) :=
  rotor_rates <- QuadrotorCommands.rotor_rates input ;;
  let u1 := mix_u1 rotor_rates in
  let u2 := mix_u2 rotor_rates in
  let state_derivative := fun (t : R) (state : QuadrotorState.t) =>
    state_derivative state u1 u2 in
  let state_vector := QuadrotorDynamicsBase.state self in
  solution <- solve_ivp_RK45 state_derivative
                (0, QuadrotorDynamicsBase.dt self) state_vector ;;
  Ok ({| QuadrotorDynamicsBase.dt := QuadrotorDynamicsBase.dt self;
         QuadrotorDynamicsBase.state := solution |}, solution).
End Step.

End FullQuadrotorDynamics.

Definition required_thrust : R := mass p * g p.

Definition hovering_rotor_rate : R := sqrt (required_thrust / (4 * k_thrust p)).

(** [HoveringController.step]: the same rate on the four rotors. *)
Definition HoveringController_step : QuadrotorCommands.t :=
  QuadrotorCommands.of_rotor_rates
    (mkV4 hovering_rotor_rate hovering_rotor_rate
          hovering_rotor_rate hovering_rotor_rate).

End Reworking.

(** ** Notebook [5-Controller-Full.ipynb] *)

Module ControllerFull.
Import QuadrotorState.
Local Open Scope result_scope.

Module FullQuadrotorDynamics.

(** The local [acceleration] of [step]. *)
Definition acceleration (u1 : R) : vec3 :=
  vsub (vscale (u1 / mass p) (mkV3 0 0 1)) (mkV3 0 0 (g p)).

Definition step (self : QuadrotorDynamicsBase.t) (t : R)
           (commands : QuadrotorCommands.t) (state : QuadrotorState.t)
  : result QuadrotorState.t :=
  let dt := 0.005 in
  u1 <- QuadrotorCommands.u1 commands ;;
  u2 <- QuadrotorCommands.u2 commands ;;
  let acceleration := acceleration u1 in
  let new_velocity := vadd (velocity state) (vmuls acceleration dt) in
  let new_position := vadd (position state) (vmuls new_velocity dt) in
  inertia_inv <- linalg_inv (inertia p) ;;
  let angular_acceleration :=
    matvec inertia_inv
      (vsub u2 (cross (angular_velocity state)
                      (matvec (inertia p) (angular_velocity state)))) in
  let new_angular_velocity :=
    vadd (angular_velocity state) (vmuls angular_acceleration dt) in
  let new_orientation := dRot3 (orientation state) new_angular_velocity in
  Ok {| position := new_position;
        velocity := new_velocity;
        orientation := new_orientation;
        angular_velocity := new_angular_velocity |}.

End FullQuadrotorDynamics.

Record ControllerParams : Type := mkControllerParams {
  K_p : mat3;
  K_d : mat3;
  Ka_p : mat3;
  Ka_d : mat3;
  rotor_rate_min : R;
  rotor_rate_max : R
}.

(** [controller_p = ControllerParams()] *)
Definition controller_p : ControllerParams :=
  {| K_p := diag 1 1 100;
     K_d := diag 0.5 0.5 10;
     Ka_p := diag 300 300 50;
     Ka_d := diag 50 50 20;
     rotor_rate_min := 180;
     rotor_rate_max := 600 |}.

Module Controller.

Record t : Type := mk { params : ControllerParams }.

(** [Controller.__init__] *)
Definition init (params : ControllerParams) : result t :=
  Ok {| params := params |}.

(** The locals of [step], in the order the method computes them. *)
Definition commanded_acceleration (self : t)
           (trajectory : TrajectoryState.t) (state : QuadrotorState.t) : vec3 :=
  let desired_position := TrajectoryState.position trajectory in
  let actual_position := position state in
  let position_error := vsub desired_position actual_position in
  let desired_velocity := zeros3 in
  let actual_velocity := velocity state in
  let velocity_error := vsub desired_velocity actual_velocity in
  vadd (matvec (K_p (params self)) position_error)
       (matvec (K_d (params self)) velocity_error).

Definition desired_orientation (self : t)
           (trajectory : TrajectoryState.t) (state : QuadrotorState.t) : Rot3 :=
  let commanded_acceleration := commanded_acceleration self trajectory state in
  let yaw := to_yaw (orientation state) in
  let phi_des := (1 / g p) * (v0 commanded_acceleration * sin yaw
                              - v1 commanded_acceleration * cos yaw) in
  let theta_des := (1 / g p) * (v0 commanded_acceleration * cos yaw
                                + v1 commanded_acceleration * sin yaw) in
  from_yaw_pitch_roll (TrajectoryState.yaw trajectory) theta_des phi_des.

Definition step (self : t) (t : R) (trajectory : TrajectoryState.t)
           (state : QuadrotorState.t) : result QuadrotorCommands.t :=
  let commanded_acceleration := commanded_acceleration self trajectory state in
  let u1 := mass p * (g p + v2 commanded_acceleration) in
  let desired_orientation := desired_orientation self trajectory state in
  let orientation_error :=
    compose desired_orientation (inverse (orientation state)) in
  let orientation_error_matrix := to_rotation_matrix orientation_error in
  let orientation_error_vec :=
    mkV3 (v1 (row2 orientation_error_matrix))
         (v2 (row0 orientation_error_matrix))
         (v0 (row1 orientation_error_matrix)) in
  let angular_velocity_error := vsub zeros3 (angular_velocity state) in
  let u2 := vadd (matvec (Ka_p (params self)) orientation_error_vec)
                 (matvec (Ka_d (params self)) angular_velocity_error) in
  Ok (QuadrotorCommands.of_thrust_torque u1 u2).

End Controller.

End ControllerFull.

(** ** Scenarios and predicates of the specification *)

(** The vehicle at the origin, at rest, with orientation [q]. *)
Definition at_rest (q : Rot3) : QuadrotorState.t :=
  {| QuadrotorState.position := zeros3;
     QuadrotorState.velocity := zeros3;
     QuadrotorState.orientation := q;
     QuadrotorState.angular_velocity := zeros3 |}.

(** The vehicle at rest one metre above the origin, level. *)
Definition one_metre_up : QuadrotorState.t :=
  {| QuadrotorState.position := mkV3 0 0 1;
     QuadrotorState.velocity := zeros3;
     QuadrotorState.orientation := identity;
     QuadrotorState.angular_velocity := zeros3 |}.

(** The sample "hold the origin, yaw 0", at time 0. *)
Definition hold_origin : TrajectoryState.t := TrajectoryState.mk 0 zeros3 0 0.

(** [Controller(controller_p)] *)
Definition default_controller : ControllerFull.Controller.t :=
  {| ControllerFull.Controller.params := ControllerFull.controller_p |}.

(** A dynamics object whose driver configured the timestep [dt]. *)
Definition dynamics_with_dt (dt : R) : QuadrotorDynamicsBase.t :=
  {| QuadrotorDynamicsBase.dt := dt;
     QuadrotorDynamicsBase.state := at_rest identity |}.

(** "Diagonal, strictly positive entries": what the specification asks of a
    gain matrix. *)
Definition positive_diagonal (m : mat3) : Prop :=
  0 < v0 (row0 m) /\ v1 (row0 m) = 0 /\ v2 (row0 m) = 0
  /\ v0 (row1 m) = 0 /\ 0 < v1 (row1 m) /\ v2 (row1 m) = 0
  /\ v0 (row2 m) = 0 /\ v1 (row2 m) = 0 /\ 0 < v2 (row2 m).

Definition valid_gains (params : ControllerFull.ControllerParams) : Prop :=
  positive_diagonal (ControllerFull.K_p params)
  /\ positive_diagonal (ControllerFull.K_d params)
  /\ positive_diagonal (ControllerFull.Ka_p params)
  /\ positive_diagonal (ControllerFull.Ka_d params).

(** Gains that are all the zero matrix. *)
Definition zero_gains : ControllerFull.ControllerParams :=
  {| ControllerFull.K_p := diag 0 0 0;
     ControllerFull.K_d := diag 0 0 0;
     ControllerFull.Ka_p := diag 0 0 0;
     ControllerFull.Ka_d := diag 0 0 0;
     ControllerFull.rotor_rate_min := 180;
     ControllerFull.rotor_rate_max := 600 |}.

(** ** The Euler step of [5-Controller-Full.ipynb] over binary64

    The same cell read with numpy's own scalars: [float] is IEEE 754 binary64,
    with its NaN and its two infinities, and the four operations round to
    nearest.  numpy raises nothing on a NaN or an overflow (it warns), so the
    operations are total here. *)

Module Float64.
Import Floats.
Local Open Scope float_scope.
Local Open Scope result_scope.
#[local] Set Warnings "-inexact-float".

Record vec3 : Type := mkV3 { v0 : float; v1 : float; v2 : float }.
Record vec4 : Type := mkV4 { w0 : float; w1 : float; w2 : float; w3 : float }.
Record mat3 : Type := mkM3 { row0 : vec3; row1 : vec3; row2 : vec3 }.

Definition vadd (a b : vec3) : vec3 :=
  mkV3 (v0 a + v0 b) (v1 a + v1 b) (v2 a + v2 b).

Definition vsub (a b : vec3) : vec3 :=
  mkV3 (v0 a - v0 b) (v1 a - v1 b) (v2 a - v2 b).

Definition vscale (s : float) (a : vec3) : vec3 :=
  mkV3 (s * v0 a) (s * v1 a) (s * v2 a).

Definition vmuls (a : vec3) (s : float) : vec3 :=
  mkV3 (v0 a * s) (v1 a * s) (v2 a * s).

(** The sum of the three products, accumulated left to right. *)
Definition dot3 (a b : vec3) : float :=
  v0 a * v0 b + v1 a * v1 b + v2 a * v2 b.

Definition cross (a b : vec3) : vec3 :=
  mkV3 (v1 a * v2 b - v2 a * v1 b)
       (v2 a * v0 b - v0 a * v2 b)
       (v0 a * v1 b - v1 a * v0 b).

Definition matvec (m : mat3) (v : vec3) : vec3 :=
  mkV3 (dot3 (row0 m) v) (dot3 (row1 m) v) (dot3 (row2 m) v).

Record Rot3 : Type := from_storage { to_storage : vec4 }.

Definition dRot3 (R_ : Rot3) (omega : vec3) : Rot3 :=
  let q0 := w0 (to_storage R_) in let q1 := w1 (to_storage R_) in
  let q2 := w2 (to_storage R_) in let q3 := w3 (to_storage R_) in
  let G0 := mkV4 q3 q2 (- q1) (- q0) in
  let G1 := mkV4 (- q2) q3 q0 (- q1) in
  let G2 := mkV4 q1 (- q0) q3 (- q2) in
  let GT_omega :=
    mkV4 (w0 G0 * v0 omega + w0 G1 * v1 omega + w0 G2 * v2 omega)
         (w1 G0 * v0 omega + w1 G1 * v1 omega + w1 G2 * v2 omega)
         (w2 G0 * v0 omega + w2 G1 * v1 omega + w2 G2 * v2 omega)
         (w3 G0 * v0 omega + w3 G1 * v1 omega + w3 G2 * v2 omega) in
  let quat_dot := mkV4 (w0 GT_omega / 2) (w1 GT_omega / 2)
                       (w2 GT_omega / 2) (w3 GT_omega / 2) in
  from_storage quat_dot.

(** The dataclass [Params] and its instance [p]; the literals round to the
    nearest binary64 value, as Python's do. *)
Record Params : Type := mkParams {
  mass : float;
  inertia : mat3;
  rotor_diameter : float;
  static_thrust_coefficient : float;
  static_torque_coefficient : float;
  arm_length : float;
  g : float;
  rho : float
}.

Definition p : Params :=
  {| mass := 1.352;
     inertia := mkM3 (mkV3 9.8e-3 0 0) (mkV3 0 10.02e-3 0) (mkV3 0 0 18.6e-3);
     rotor_diameter := 10 * 0.0254;
     static_thrust_coefficient := 0.14553;
     static_torque_coefficient := 0.01047;
     arm_length := 0.3814 / 2.0;
     g := 9.80665;
     rho := 1.225 |}.

Record QuadrotorState : Type := mkState {
  position : vec3;
  velocity : vec3;
  orientation : Rot3;
  angular_velocity : vec3
}.

Inductive QuadrotorCommands : Type :=
| of_rotor_rates (rotor_rates : vec4)
| of_thrust_torque (u1 : float) (u2 : vec3).

Definition get_u1 (c : QuadrotorCommands) : result float :=
  match c with
  | of_thrust_torque u _ => Ok u
  | of_rotor_rates _ => Raise AttributeError
  end.

Definition get_u2 (c : QuadrotorCommands) : result vec3 :=
  match c with
  | of_thrust_torque _ u => Ok u
  | of_rotor_rates _ => Raise AttributeError
  end.

Section Step.
(** The array [np.linalg.inv(p.inertia)] evaluates to.  LAPACK computes
    it outside the notebook, from a constant, regular matrix; the step is
    read for whatever entries it returns. *)
Variable inertia_inv : mat3.

(** [FullQuadrotorDynamics.step]; the method does not read [self]. *)
Definition step (t : float) (commands : QuadrotorCommands)
           (state : QuadrotorState) : result QuadrotorState :=
  let dt := 0.005 in
  u1 <- get_u1 commands ;;
  u2 <- get_u2 commands ;;
  let acceleration :=
    vsub (vscale (u1 / mass p) (mkV3 0 0 1)) (mkV3 0 0 (g p)) in
  let new_velocity := vadd (velocity state) (vmuls acceleration dt) in
  let new_position := vadd (position state) (vmuls new_velocity dt) in
  let angular_acceleration :=
    matvec inertia_inv
      (vsub u2 (cross (angular_velocity state)
                      (matvec (inertia p) (angular_velocity state)))) in
  let new_angular_velocity :=
    vadd (angular_velocity state) (vmuls angular_acceleration dt) in
  let new_orientation := dRot3 (orientation state) new_angular_velocity in
  Ok {| position := new_position;
        velocity := new_velocity;
        orientation := new_orientation;
        angular_velocity := new_angular_velocity |}.
End Step.

(** [not np.isfinite(x)] *)
Definition nonfinite (x : float) : bool := negb (is_finite x).

Definition nonfinite3 (a : vec3) : bool :=
  nonfinite (v0 a) || nonfinite (v1 a) || nonfinite (v2 a).

Definition nonfinite4 (a : vec4) : bool :=
  nonfinite (w0 a) || nonfinite (w1 a) || nonfinite (w2 a) || nonfinite (w3 a).

(** Some entry of the state is NaN or infinite. *)
Definition nonfinite_state (s : QuadrotorState) : bool :=
  nonfinite3 (position s) || nonfinite3 (velocity s)
  || nonfinite4 (to_storage (orientation s)) || nonfinite3 (angular_velocity s).

(** Some entry of the command is NaN or infinite. *)
Definition nonfinite_command (c : QuadrotorCommands) : bool :=
  match c with
  | of_rotor_rates r => nonfinite4 r
  | of_thrust_torque u1 u2 => nonfinite u1 || nonfinite3 u2
  end.

(** The same on the specification of a binary64 value. *)
Definition SFnonfinite (f : spec_float) : bool :=
  match f with
  | S754_nan | S754_infinity _ => true
  | S754_zero _ | S754_finite _ _ _ => false
  end.

(** The array LAPACK returns for the default inertia, up to its rounding:
    the reciprocals on the diagonal. *)
Definition inertia_inv_diag : mat3 :=
  mkM3 (mkV3 (1 / 9.8e-3) 0 0) (mkV3 0 (1 / 10.02e-3) 0) (mkV3 0 0 (1 / 18.6e-3)).

(** The level vehicle at rest whose x position is NaN, and the command
    "no thrust, no torque". *)
Definition nan_state : QuadrotorState :=
  {| position := mkV3 nan 0 0;
     velocity := mkV3 0 0 0;
     orientation := from_storage (mkV4 0 0 0 1);
     angular_velocity := mkV3 0 0 0 |}.

Definition no_thrust : QuadrotorCommands := of_thrust_torque 0 (mkV3 0 0 0).

End Float64.

(** ** Further cells and locals *)

(** The locals [phi_des] and [theta_des] of [Controller.step], the desired
    roll and pitch. *)
Definition phi_des (self : ControllerFull.Controller.t)
           (trajectory : TrajectoryState.t) (state : QuadrotorState.t) : R :=
  let commanded_acceleration :=
    ControllerFull.Controller.commanded_acceleration self trajectory state in
  let yaw := to_yaw (QuadrotorState.orientation state) in
  (1 / g p) * (v0 commanded_acceleration * sin yaw
               - v1 commanded_acceleration * cos yaw).

Definition theta_des (self : ControllerFull.Controller.t)
           (trajectory : TrajectoryState.t) (state : QuadrotorState.t) : R :=
  let commanded_acceleration :=
    ControllerFull.Controller.commanded_acceleration self trajectory state in
  let yaw := to_yaw (QuadrotorState.orientation state) in
  (1 / g p) * (v0 commanded_acceleration * cos yaw
               + v1 commanded_acceleration * sin yaw).

(** The local [orientation_error] of [Controller.step]. *)
Definition orientation_error (self : ControllerFull.Controller.t)
           (trajectory : TrajectoryState.t) (state : QuadrotorState.t) : Rot3 :=
  compose (ControllerFull.Controller.desired_orientation self trajectory state)
          (inverse (QuadrotorState.orientation state)).

(** [SmoothTrajectory.eval] of [5-Controller-Full.ipynb]. *)
Definition SmoothTrajectory_eval (t : R) : TrajectoryState.t :=
  let position := mkV3 (0.5 * sin t) (0.5 * cos t) (0.2 * t) in
  let yaw_rate := 0.1 in
  let yaw := yaw_rate * t in
  TrajectoryState.mk t position yaw yaw_rate.

(** [n] successive calls of the Euler step under one command, each on the
    state the call before it returned; a call that raises ends the run. *)
Fixpoint run_steps (n : nat) (self : QuadrotorDynamicsBase.t) (t : R)
         (commands : QuadrotorCommands.t) (state : QuadrotorState.t)
  : result QuadrotorState.t :=
  match n with
  | O => Ok state
  | S k =>
      bind (ControllerFull.FullQuadrotorDynamics.step self t commands state)
           (fun next => run_steps k self t commands next)
  end.

(** The angular velocity [omega] as a quaternion of zero scalar part. *)
Definition pure_quat (omega : vec3) : Rot3 :=
  quat (v0 omega) (v1 omega) (v2 omega) 0.

(** * Properties *)

(** ** The parameters *)

Lemma mass_pos : 0 < mass p.
Proof. unfold p; simpl; lra. Qed.

Lemma g_pos : 0 < g p.
Proof. unfold p; simpl; lra. Qed.

Lemma rotor_model_pos (c : R) : 0 < c -> 0 < rotor_model p c.
Proof.
  intros Hc. unfold rotor_model.
  apply Rdiv_lt_0_compat.
  - apply Rmult_lt_0_compat.
    + apply Rmult_lt_0_compat; [unfold p; simpl; lra | exact Hc].
    + apply pow_lt. unfold p; simpl; lra.
  - apply Rmult_lt_0_compat; [lra | apply pow_lt, PI_RGT_0].
Qed.

Lemma k_thrust_pos : 0 < k_thrust p.
Proof. apply rotor_model_pos. unfold p; simpl; lra. Qed.

Lemma k_torque_pos : 0 < k_torque p.
Proof. apply rotor_model_pos. unfold p; simpl; lra. Qed.

Lemma inertia_regular : det3 (inertia p) <> 0.
Proof. unfold det3, dot3, cross, p; simpl. lra. Qed.

(** [np.linalg.inv(p.inertia)] returns: the default inertia is regular. *)
Lemma linalg_inv_inertia :
  linalg_inv (inertia p)
  = Ok (mscale (/ det3 (inertia p)) (adjugate (inertia p))).
Proof.
  unfold linalg_inv.
  destruct (Req_dec_T (det3 (inertia p)) 0) as [E | _]; [| reflexivity].
  destruct (inertia_regular E).
Qed.

(** A matrix maps the zero vector to itself. *)
Lemma matvec_zeros (m : mat3) : matvec m zeros3 = zeros3.
Proof. unfold matvec, dot3, zeros3; simpl. f_equal; ring. Qed.

(** ** [sym.Rot3]: the operations agree with each other *)

Lemma from_yaw_pitch_roll_level : from_yaw_pitch_roll 0 0 0 = identity.
Proof.
  unfold from_yaw_pitch_roll, identity, quat.
  replace (0 / 2) with 0 by field. rewrite sin_0, cos_0.
  do 2 f_equal; ring.
Qed.

Lemma to_rotation_matrix_identity : to_rotation_matrix identity = diag 1 1 1.
Proof.
  unfold to_rotation_matrix, identity, diag, quat, qx, qy, qz, qw.
  cbn [to_storage w0 w1 w2 w3]. repeat f_equal; ring.
Qed.

Lemma compose_identity_l (q : Rot3) : compose identity q = q.
Proof.
  destruct q as [[x y z w]].
  unfold compose, identity, quat, qx, qy, qz, qw; cbn [to_storage w0 w1 w2 w3].
  do 2 f_equal; ring.
Qed.

Lemma compose_identity_r (q : Rot3) : compose q identity = q.
Proof.
  destruct q as [[x y z w]].
  unfold compose, identity, quat, qx, qy, qz, qw; cbn [to_storage w0 w1 w2 w3].
  do 2 f_equal; ring.
Qed.

Lemma compose_assoc (a b c : Rot3) :
  compose (compose a b) c = compose a (compose b c).
Proof.
  unfold compose, quat, qx, qy, qz, qw; cbn [to_storage w0 w1 w2 w3].
  do 2 f_equal; ring.
Qed.

(** A unit rotation composed with its inverse is the identity. *)
Lemma compose_inverse_r (q : Rot3) :
  dot4 (to_storage q) (to_storage q) = 1 -> compose q (inverse q) = identity.
Proof.
  destruct q as [[x y z w]].
  unfold dot4, compose, inverse, identity, quat, qx, qy, qz, qw.
  cbn [to_storage w0 w1 w2 w3]. intros H.
  do 2 f_equal; try ring. rewrite <- H. ring.
Qed.

(** The rotation constructed from a yaw angle alone has unit norm and that
    yaw's matrix. *)
Lemma from_yaw_unit (yaw : R) :
  dot4 (to_storage (from_yaw_pitch_roll yaw 0 0))
       (to_storage (from_yaw_pitch_roll yaw 0 0)) = 1.
Proof.
  unfold from_yaw_pitch_roll, dot4, quat; cbn [to_storage w0 w1 w2 w3].
  replace (0 / 2) with 0 by field. rewrite sin_0, cos_0.
  pose proof (sin2_cos2 (yaw / 2)) as H. unfold Rsqr in H. nra.
Qed.

(** ** The quaternion rate *)

Lemma dRot3_zero (q : Rot3) : dRot3 q zeros3 = quat 0 0 0 0.
Proof. unfold dRot3, quat, zeros3; simpl. do 2 f_equal; field. Qed.

(** The columns of G(q)^T are orthogonal to q. *)
Lemma dot4_dRot3 (q : Rot3) (omega : vec3) :
  dot4 (to_storage q) (to_storage (dRot3 q omega)) = 0.
Proof. unfold dRot3, dot4, qx, qy, qz, qw; simpl. field. Qed.

(** C10: for every quaternion [q] in xyzw storage and every body angular
    velocity [omega], the rate [dRot3 q omega] = (G(q)^T omega)/2 is
    orthogonal to [q] in the four-dimensional dot product, and the rate at
    zero angular velocity is the zero tangent vector. *)
Theorem dRot3_orthogonal (q : Rot3) (omega : vec3) :
  dot4 (to_storage q) (to_storage (dRot3 q omega)) = 0
  /\ to_storage (dRot3 q zeros3) = mkV4 0 0 0 0.
Proof.
  split.
  - apply dot4_dRot3.
  - rewrite dRot3_zero. reflexivity.
Qed.

(** ** The rotor mixing of [Reworking] *)

(** The yaw torque [step] mixes, for any four rates. *)
Lemma mix_u2_yaw (r : vec4) :
  v2 (Reworking.FullQuadrotorDynamics.mix_u2 r) = k_torque p * (w0 r - w1 r + w2 r - w3 r).
Proof. reflexivity. Qed.

(** C4: on the rotor rates (2, 1, 1, 1) the yaw component of the mixed
    torque is [k_torque] times the alternating sum of the rates, 1, and not
    times the alternating sum of their squares, 3. *)
Theorem mix_u2_yaw_not_squared :
  v2 (Reworking.FullQuadrotorDynamics.mix_u2 (mkV4 2 1 1 1)) = k_torque p * 1
  /\ v2 (Reworking.FullQuadrotorDynamics.mix_u2 (mkV4 2 1 1 1))
     <> k_torque p * (2 ^ 2 - 1 ^ 2 + 1 ^ 2 - 1 ^ 2).
Proof.
  rewrite mix_u2_yaw; simpl.
  pose proof k_torque_pos as H.
  split; [f_equal; ring | nra].
Qed.

(** The roll and pitch torques do use the squared rates. *)
Lemma mix_u2_roll_pitch (r : vec4) :
  v0 (Reworking.FullQuadrotorDynamics.mix_u2 r) = arm_length p * (k_thrust p * (w0 r * w0 r) - k_thrust p * (w2 r * w2 r))
  /\ v1 (Reworking.FullQuadrotorDynamics.mix_u2 r) = arm_length p * (k_thrust p * (w1 r * w1 r) - k_thrust p * (w3 r * w3 r)).
Proof. split; reflexivity. Qed.

(** ** The linear acceleration *)

(** In [Reworking], [state_derivative] returns, and its velocity rate is the
    thrust vector rotated into the world frame, scaled by 1/mass, plus gravity. *)
Lemma state_derivative_accel (state : QuadrotorState.t) (u1 u2 : vec3) :
  exists d,
    Reworking.FullQuadrotorDynamics.state_derivative state u1 u2 = Ok d
    /\ QuadrotorState.velocity d
       = vadd (vscale (1 / mass p)
                 (matvec (to_rotation_matrix (QuadrotorState.orientation state)) u1))
              (mkV3 0 0 (- g p))
    /\ QuadrotorState.orientation d
       = dRot3 (QuadrotorState.orientation state)
               (QuadrotorState.angular_velocity state).
Proof.
  unfold Reworking.FullQuadrotorDynamics.state_derivative.
  rewrite linalg_inv_inertia. cbn [bind].
  eexists; split; [reflexivity |]. cbn [QuadrotorState.velocity QuadrotorState.orientation].
  split; [| reflexivity].
  pose proof mass_pos as Hm.
  unfold vadd, vscale; cbn [v0 v1 v2].
  f_equal; field; lra.
Qed.

(** The Euler step of [ControllerFull] on a thrust/torque command: it
    returns, whatever the state and the command. *)
Lemma step_thrust_torque (self : QuadrotorDynamicsBase.t) (t u1 : R) (u2 : vec3)
      (state : QuadrotorState.t) :
  ControllerFull.FullQuadrotorDynamics.step self t
    (QuadrotorCommands.of_thrust_torque u1 u2) state
  = let dt := 0.005 in
    let acceleration := ControllerFull.FullQuadrotorDynamics.acceleration u1 in
    let new_velocity := vadd (QuadrotorState.velocity state) (vmuls acceleration dt) in
    let omega := QuadrotorState.angular_velocity state in
    let new_angular_velocity :=
      vadd omega
        (vmuls (matvec (mscale (/ det3 (inertia p)) (adjugate (inertia p)))
                  (vsub u2 (cross omega (matvec (inertia p) omega)))) dt) in
    Ok {| QuadrotorState.position :=
            vadd (QuadrotorState.position state) (vmuls new_velocity dt);
          QuadrotorState.velocity := new_velocity;
          QuadrotorState.orientation :=
            dRot3 (QuadrotorState.orientation state) new_angular_velocity;
          QuadrotorState.angular_velocity := new_angular_velocity |}.
Proof.
  unfold ControllerFull.FullQuadrotorDynamics.step.
  cbn [QuadrotorCommands.u1 QuadrotorCommands.u2 bind].
  rewrite linalg_inv_inertia. reflexivity.
Qed.

(** C2: with the vehicle turned upside down (half a turn about the body x
    axis, storage (1,0,0,0)) and the thrust command u1 = mass, the Euler step
    uses the acceleration (0, 0, 1 - g): the thrust is not rotated.  The
    formula (1/mass) R (0,0,u1) + (0,0,-g) gives (0, 0, -1 - g). *)
Theorem step_thrust_not_rotated :
  let q := quat 1 0 0 0 in
  let u1 := mass p in
  let dt := 0.005 in
  forall self t u2,
  ControllerFull.FullQuadrotorDynamics.acceleration u1 = mkV3 0 0 (1 - g p)
  /\ vadd (vscale (1 / mass p) (matvec (to_rotation_matrix q) (mkV3 0 0 u1)))
          (mkV3 0 0 (- g p))
     = mkV3 0 0 (- 1 - g p)
  /\ (exists s',
        ControllerFull.FullQuadrotorDynamics.step self t
          (QuadrotorCommands.of_thrust_torque u1 u2) (at_rest q) = Ok s'
        /\ QuadrotorState.velocity s' = mkV3 0 0 ((1 - g p) * dt))
  /\ mkV3 0 0 (1 - g p) <> mkV3 0 0 (- 1 - g p).
Proof.
  intros q u1 dt self t u2.
  pose proof mass_pos as Hm.
  assert (Ha : ControllerFull.FullQuadrotorDynamics.acceleration u1
               = mkV3 0 0 (1 - g p)).
  { unfold ControllerFull.FullQuadrotorDynamics.acceleration, u1, vsub, vscale.
    cbn [v0 v1 v2]. f_equal; field; lra. }
  split; [exact Ha |].
  split.
  { unfold q, u1, quat, to_rotation_matrix, matvec, dot3, vadd, vscale, qx, qy, qz, qw.
    cbn [v0 v1 v2 w0 w1 w2 w3 row0 row1 row2 to_storage].
    f_equal; field; lra. }
  split.
  { rewrite step_thrust_torque. cbv zeta. eexists; split; [reflexivity |].
    cbn [QuadrotorState.velocity]. rewrite Ha.
    unfold at_rest, vadd, vmuls, zeros3, dt.
    cbn [QuadrotorState.velocity v0 v1 v2]. f_equal; ring. }
  intros E. injection E as E. lra.
Qed.

(** ** The controller *)

(** C3 as stated fails: with the default gains, a vehicle one metre above
    the desired position gets the commanded vertical acceleration -100 and
    the step emits a negative thrust. *)
Lemma step_thrust_negative :
  exists u1 u2,
    ControllerFull.Controller.step default_controller 0 hold_origin one_metre_up
    = Ok (QuadrotorCommands.of_thrust_torque u1 u2)
    /\ u1 < 0.
Proof.
  unfold ControllerFull.Controller.step.
  do 2 eexists; split; [reflexivity |].
  unfold ControllerFull.Controller.commanded_acceleration, default_controller,
    hold_origin, one_metre_up, ControllerFull.controller_p, diag, matvec, dot3,
    vadd, vsub, zeros3, p.
  cbn. lra.
Qed.

(** C3: for every trajectory sample and state the controller step emits the
    thrust u1 = mass * (g + commanded_acceleration.z), unclamped; it is
    non-negative exactly when the commanded vertical acceleration is at
    least -g. *)
Theorem step_thrust_unclamped (self : ControllerFull.Controller.t) (t : R)
        (trajectory : TrajectoryState.t) (state : QuadrotorState.t) :
  let az := v2 (ControllerFull.Controller.commanded_acceleration self trajectory state) in
  exists u2,
    ControllerFull.Controller.step self t trajectory state
    = Ok (QuadrotorCommands.of_thrust_torque (mass p * (g p + az)) u2)
    /\ (0 <= mass p * (g p + az) <-> - g p <= az).
Proof.
  intros az. eexists; split; [reflexivity |].
  pose proof mass_pos as Hm.
  split; intros H.
  - assert (0 <= g p + az) by nra. lra.
  - apply Rmult_le_pos; lra.
Qed.

(** The rotation error of an orientation against itself has no
    skew-symmetric part, unit norm or not. *)
Lemma error_vec_self (q : Rot3) :
  let m := to_rotation_matrix (compose q (inverse q)) in
  mkV3 (v1 (row2 m)) (v2 (row0 m)) (v0 (row1 m)) = zeros3.
Proof.
  unfold to_rotation_matrix, compose, inverse, quat, qx, qy, qz, qw, zeros3.
  cbn [v0 v1 v2 w0 w1 w2 w3 row0 row1 row2 to_storage].
  f_equal; ring.
Qed.

(** C7: when the desired position is the actual one, the vehicle is at rest
    with zero angular velocity, and its orientation is the desired
    orientation, the controller step returns the thrust mass * g and the
    zero torque. *)
Theorem step_at_goal (self : ControllerFull.Controller.t) (t : R)
        (trajectory : TrajectoryState.t) (state : QuadrotorState.t) :
  TrajectoryState.position trajectory = QuadrotorState.position state ->
  QuadrotorState.velocity state = zeros3 ->
  QuadrotorState.angular_velocity state = zeros3 ->
  QuadrotorState.orientation state
  = ControllerFull.Controller.desired_orientation self trajectory state ->
  ControllerFull.Controller.step self t trajectory state
  = Ok (QuadrotorCommands.of_thrust_torque (mass p * g p) zeros3).
Proof.
  intros Hpos Hvel Hom Hor.
  unfold ControllerFull.Controller.step.
  rewrite <- Hor.
  pose proof (error_vec_self (QuadrotorState.orientation state)) as He.
  cbv zeta in He. rewrite He.
  assert (Ha : ControllerFull.Controller.commanded_acceleration self trajectory state
               = zeros3).
  { unfold ControllerFull.Controller.commanded_acceleration.
    rewrite Hpos, Hvel.
    replace (vsub (QuadrotorState.position state) (QuadrotorState.position state))
      with zeros3 by (unfold vsub, zeros3; f_equal; ring).
    replace (vsub zeros3 zeros3) with zeros3
      by (unfold vsub, zeros3; cbn [v0 v1 v2]; f_equal; ring).
    rewrite !matvec_zeros. unfold vadd, zeros3; cbn [v0 v1 v2]. f_equal; ring. }
  rewrite Ha, Hom.
  replace (vsub zeros3 zeros3) with zeros3
    by (unfold vsub, zeros3; cbn [v0 v1 v2]; f_equal; ring).
  rewrite !matvec_zeros.
  do 2 f_equal.
  - unfold zeros3; cbn [v2]. ring.
  - unfold vadd, zeros3; cbn [v0 v1 v2]. f_equal; ring.
Qed.

(** The hypotheses of C7 hold for the vehicle at rest at the origin, level,
    under the default gains and the sample "hold the origin". *)
Lemma step_at_goal_witness :
  (TrajectoryState.position hold_origin
   = QuadrotorState.position (at_rest (from_yaw_pitch_roll 0 0 0))
   /\ QuadrotorState.velocity (at_rest (from_yaw_pitch_roll 0 0 0)) = zeros3
   /\ QuadrotorState.angular_velocity (at_rest (from_yaw_pitch_roll 0 0 0)) = zeros3
   /\ QuadrotorState.orientation (at_rest (from_yaw_pitch_roll 0 0 0))
      = ControllerFull.Controller.desired_orientation default_controller hold_origin
          (at_rest (from_yaw_pitch_roll 0 0 0)))
  /\ ControllerFull.Controller.step default_controller 0 hold_origin
       (at_rest (from_yaw_pitch_roll 0 0 0))
     = Ok (QuadrotorCommands.of_thrust_torque (mass p * g p) zeros3).
Proof.
  assert (Hor : QuadrotorState.orientation (at_rest (from_yaw_pitch_roll 0 0 0))
                = ControllerFull.Controller.desired_orientation default_controller
                    hold_origin (at_rest (from_yaw_pitch_roll 0 0 0))).
  { unfold ControllerFull.Controller.desired_orientation,
      ControllerFull.Controller.commanded_acceleration, default_controller,
      hold_origin, at_rest, ControllerFull.controller_p, diag, matvec, dot3,
      vadd, vsub, zeros3, p.
    cbn [QuadrotorState.position QuadrotorState.velocity QuadrotorState.orientation
         TrajectoryState.position TrajectoryState.yaw ControllerFull.Controller.params
         ControllerFull.K_p ControllerFull.K_d g v0 v1 v2 row0 row1 row2].
    f_equal; lra. }
  split.
  - repeat split; [reflexivity .. | exact Hor].
  - apply step_at_goal; [reflexivity .. | exact Hor].
Defined.

(** ** Controller construction *)

(** C9 as stated fails: gains that are all the zero matrix are not
    positive diagonal, and the controller is constructed all the same. *)
Lemma init_accepts_zero_gains :
  ~ valid_gains zero_gains
  /\ exists c, ControllerFull.Controller.init zero_gains = Ok c.
Proof.
  split.
  - intros [[H _] _]. unfold zero_gains, diag in H; cbn in H. lra.
  - eexists; reflexivity.
Qed.

(** C9: constructing the controller validates nothing; for every
    [ControllerParams], whatever its gain matrices, the construction returns
    a controller that holds these parameters unchanged. *)
Theorem init_total (params : ControllerFull.ControllerParams) :
  exists c,
    ControllerFull.Controller.init params = Ok c
    /\ ControllerFull.Controller.params c = params.
Proof. eexists; split; reflexivity. Qed.

(** ** The timestep *)

(** The Euler step never reads the object it is called on, hence not the
    timestep its driver configured. *)
Lemma step_ignores_self (self self' : QuadrotorDynamicsBase.t) (t t' : R)
      (commands : QuadrotorCommands.t) (state : QuadrotorState.t) :
  ControllerFull.FullQuadrotorDynamics.step self t commands state
  = ControllerFull.FullQuadrotorDynamics.step self' t' commands state.
Proof. reflexivity. Qed.

(** C5: a driver that configured dt = 0.01 gets, from one Euler step of the
    vehicle at rest under zero thrust and torque, the vertical velocity
    -g * 0.005, the free fall over the interval 0.005 written in the step,
    and not -g * 0.01. *)
Theorem step_dt_hardwired :
  exists s',
    ControllerFull.FullQuadrotorDynamics.step (dynamics_with_dt 0.01) 0
      (QuadrotorCommands.of_thrust_torque 0 zeros3) (at_rest identity) = Ok s'
    /\ QuadrotorState.velocity s' = mkV3 0 0 (- g p * 0.005)
    /\ v2 (QuadrotorState.velocity s')
       <> - g p * QuadrotorDynamicsBase.dt (dynamics_with_dt 0.01).
Proof.
  rewrite step_thrust_torque. cbv zeta. eexists; split; [reflexivity |].
  cbn [QuadrotorState.velocity].
  assert (E : vadd (QuadrotorState.velocity (at_rest identity))
                (vmuls (ControllerFull.FullQuadrotorDynamics.acceleration 0) 0.005)
              = mkV3 0 0 (- g p * 0.005)).
  { unfold ControllerFull.FullQuadrotorDynamics.acceleration, at_rest, vadd, vmuls,
      vsub, vscale, zeros3.
    cbn [QuadrotorState.velocity v0 v1 v2].
    pose proof mass_pos. f_equal; field; lra. }
  rewrite E. split; [reflexivity |].
  cbn [v2 dynamics_with_dt QuadrotorDynamicsBase.dt].
  pose proof g_pos. lra.
Qed.

(** ** The orientation norm *)

Lemma norm4_identity : norm4 (to_storage identity) = 1.
Proof.
  unfold norm4, dot4, identity, quat; cbn [to_storage w0 w1 w2 w3].
  replace (0 * 0 + 0 * 0 + 0 * 0 + 1 * 1) with 1 by ring. apply sqrt_1.
Qed.

Lemma norm4_zero : norm4 (mkV4 0 0 0 0) = 0.
Proof.
  unfold norm4, dot4; cbn [w0 w1 w2 w3].
  replace (0 * 0 + 0 * 0 + 0 * 0 + 0 * 0) with 0 by ring. apply sqrt_0.
Qed.

(** Without torque a vehicle that does not rotate keeps not rotating. *)
Lemma no_spin_up (m : mat3) (dt : R) :
  vadd zeros3 (vmuls (matvec m (vsub zeros3 (cross zeros3 (matvec (inertia p) zeros3)))) dt)
  = zeros3.
Proof.
  rewrite matvec_zeros.
  replace (vsub zeros3 (cross zeros3 zeros3)) with zeros3
    by (unfold vsub, cross, zeros3; cbn [v0 v1 v2]; f_equal; ring).
  rewrite matvec_zeros.
  unfold vadd, vmuls, zeros3; cbn [v0 v1 v2]. f_equal; ring.
Qed.

(** C1: the level vehicle at rest has an orientation of unit norm, and one
    Euler step under the hover command returns the orientation (0,0,0,0),
    of norm 0 and not 1: the step returns the quaternion rate itself, where
    the orientation advanced by that rate was meant. *)
Lemma step_orientation_not_unit :
  norm4 (to_storage (QuadrotorState.orientation (at_rest identity))) = 1
  /\ exists s',
       ControllerFull.FullQuadrotorDynamics.step (dynamics_with_dt 0.005) 0
         (QuadrotorCommands.of_thrust_torque (mass p * g p) zeros3)
         (at_rest identity) = Ok s'
       /\ to_storage (QuadrotorState.orientation s') = mkV4 0 0 0 0
       /\ norm4 (to_storage (QuadrotorState.orientation s')) <> 1.
Proof.
  split; [exact norm4_identity |].
  rewrite step_thrust_torque. cbv zeta. eexists; split; [reflexivity |].
  cbn [QuadrotorState.orientation QuadrotorState.angular_velocity at_rest].
  rewrite no_spin_up, dRot3_zero. cbn [to_storage quat].
  split; [reflexivity |].
  rewrite norm4_zero. lra.
Qed.

(** For every state and mixed command, the orientation rate of the state
    derivative that the step of [Reworking] integrates is the quaternion rate
    at the state's angular velocity, and it is orthogonal to the orientation:
    along the exact flow the squared norm of the orientation has derivative
    2 q.q' = 0. *)
Lemma state_derivative_orientation_tangent (state : QuadrotorState.t) (u1 u2 : vec3) :
  exists d,
    Reworking.FullQuadrotorDynamics.state_derivative state u1 u2 = Ok d
    /\ QuadrotorState.orientation d
       = dRot3 (QuadrotorState.orientation state) (QuadrotorState.angular_velocity state)
    /\ 2 * dot4 (to_storage (QuadrotorState.orientation state))
                (to_storage (QuadrotorState.orientation d)) = 0.
Proof.
  destruct (state_derivative_accel state u1 u2) as (d & Hd & _ & Ho).
  exists d. split; [exact Hd |]. split; [exact Ho |].
  rewrite Ho, dot4_dRot3. ring.
Qed.

(** ** Hover *)

Lemma hovering_rotor_rate_sqr :
  Reworking.hovering_rotor_rate * Reworking.hovering_rotor_rate
  = mass p * g p / (4 * k_thrust p).
Proof.
  unfold Reworking.hovering_rotor_rate, Reworking.required_thrust.
  apply sqrt_sqrt.
  pose proof mass_pos. pose proof g_pos. pose proof k_thrust_pos.
  apply Rlt_le, Rdiv_lt_0_compat; nra.
Qed.

(** The thrust the four rotors sum to at the hovering rate is the weight. *)
Lemma hover_mix_u1 :
  Reworking.FullQuadrotorDynamics.mix_u1
    (mkV4 Reworking.hovering_rotor_rate Reworking.hovering_rotor_rate
          Reworking.hovering_rotor_rate Reworking.hovering_rotor_rate)
  = mkV3 0 0 (mass p * g p).
Proof.
  unfold Reworking.FullQuadrotorDynamics.mix_u1,
    Reworking.FullQuadrotorDynamics.rotor_thrust_model, sum4, scale4, square4.
  cbn [w0 w1 w2 w3]. rewrite hovering_rotor_rate_sqr.
  pose proof k_thrust_pos. f_equal. field. lra.
Qed.

Lemma hover_mix_u2 :
  Reworking.FullQuadrotorDynamics.mix_u2
    (mkV4 Reworking.hovering_rotor_rate Reworking.hovering_rotor_rate
          Reworking.hovering_rotor_rate Reworking.hovering_rotor_rate)
  = zeros3.
Proof.
  unfold Reworking.FullQuadrotorDynamics.mix_u2,
    Reworking.FullQuadrotorDynamics.rotor_thrust_model, scale4, square4, zeros3.
  cbn [w0 w1 w2 w3]. f_equal; ring.
Qed.

(** A level vehicle, whatever its yaw: the body z axis is the world z axis. *)
Lemma level_thrust_axis (yaw s : R) :
  matvec (to_rotation_matrix (from_yaw_pitch_roll yaw 0 0)) (mkV3 0 0 s) = mkV3 0 0 s.
Proof.
  unfold from_yaw_pitch_roll, to_rotation_matrix, matvec, dot3, quat, qx, qy, qz, qw.
  cbn [to_storage w0 w1 w2 w3 v0 v1 v2 row0 row1 row2].
  replace (0 / 2) with 0 by field. rewrite sin_0, cos_0.
  f_equal; ring.
Qed.

(** C8: with the vehicle level (any yaw, no pitch, no roll) and the hovering
    rate on the four rotors, the state derivative returns, its vertical
    acceleration is within 1% of g of zero, and the mixed torque is zero. *)
Theorem hover_equilibrium (state : QuadrotorState.t) (yaw : R) :
  QuadrotorState.orientation state = from_yaw_pitch_roll yaw 0 0 ->
  let h := Reworking.hovering_rotor_rate in
  let u1 := Reworking.FullQuadrotorDynamics.mix_u1 (mkV4 h h h h) in
  let u2 := Reworking.FullQuadrotorDynamics.mix_u2 (mkV4 h h h h) in
  exists d,
    Reworking.FullQuadrotorDynamics.state_derivative state u1 u2 = Ok d
    /\ Rabs (v2 (QuadrotorState.velocity d)) <= 0.01 * g p
    /\ u2 = zeros3.
Proof.
  intros Hlevel h u1 u2.
  destruct (state_derivative_accel state u1 u2) as (d & Hd & Hv & _).
  exists d. split; [exact Hd |]. split; [| apply hover_mix_u2].
  rewrite Hv, Hlevel. unfold u1, h. rewrite hover_mix_u1, level_thrust_axis.
  unfold vadd, vscale; cbn [v0 v1 v2].
  pose proof mass_pos. pose proof g_pos.
  replace (1 / mass p * (mass p * g p) + - g p) with 0 by (field; lra).
  rewrite Rabs_R0. lra.
Qed.

(** The hypothesis of C8 holds for the initial state of the notebook. *)
Lemma hover_equilibrium_witness :
  QuadrotorState.orientation (at_rest (from_yaw_pitch_roll 0 0 0))
  = from_yaw_pitch_roll 0 0 0
  /\ exists d,
       Reworking.FullQuadrotorDynamics.state_derivative
         (at_rest (from_yaw_pitch_roll 0 0 0))
         (Reworking.FullQuadrotorDynamics.mix_u1
            (mkV4 Reworking.hovering_rotor_rate Reworking.hovering_rotor_rate
                  Reworking.hovering_rotor_rate Reworking.hovering_rotor_rate))
         (Reworking.FullQuadrotorDynamics.mix_u2
            (mkV4 Reworking.hovering_rotor_rate Reworking.hovering_rotor_rate
                  Reworking.hovering_rotor_rate Reworking.hovering_rotor_rate))
       = Ok d
       /\ Rabs (v2 (QuadrotorState.velocity d)) <= 0.01 * g p
       /\ Reworking.FullQuadrotorDynamics.mix_u2
            (mkV4 Reworking.hovering_rotor_rate Reworking.hovering_rotor_rate
                  Reworking.hovering_rotor_rate Reworking.hovering_rotor_rate)
          = zeros3.
Proof.
  split; [reflexivity |].
  exact (hover_equilibrium (at_rest (from_yaw_pitch_roll 0 0 0)) 0 eq_refl).
Defined.

(** ** Non-finite values in the Euler step *)

Module Float64Facts.
Import Floats.
Import Float64.
Local Open Scope float_scope.
#[local] Set Warnings "-inexact-float".

Lemma SFeqb_finite_refl s m e : SFeqb (S754_finite s m e) (S754_finite s m e) = true.
Proof.
  unfold SFeqb, SFcompare.
  rewrite Z.compare_refl, Pos.compare_cont_refl.
  destruct s; reflexivity.
Qed.

Lemma nonfinite_Prim2SF x : nonfinite x = SFnonfinite (Prim2SF x).
Proof.
  unfold nonfinite, is_finite, is_nan, is_infinity.
  rewrite !FloatAxioms.eqb_spec, abs_spec.
  change (Prim2SF infinity) with (S754_infinity false).
  destruct (Prim2SF x) as [s | s | | s m e].
  - reflexivity.
  - destruct s; reflexivity.
  - reflexivity.
  - rewrite SFeqb_finite_refl. reflexivity.
Qed.

Lemma nonfinite_add_l x y : nonfinite x = true -> nonfinite (x + y) = true.
Proof.
  rewrite !nonfinite_Prim2SF, add_spec.
  destruct (Prim2SF x) as [s | s | | s m e]; try discriminate;
    destruct (Prim2SF y) as [s' | s' | | s' m' e']; intros _; try reflexivity.
  destruct s, s'; reflexivity.
Qed.
Lemma nonfinite_add_r x y : nonfinite y = true -> nonfinite (x + y) = true.
Proof.
  rewrite !nonfinite_Prim2SF, add_spec.
  destruct (Prim2SF y) as [s | s | | s m e]; try discriminate;
    destruct (Prim2SF x) as [s' | s' | | s' m' e']; intros _; try reflexivity.
  destruct s, s'; reflexivity.
Qed.
Lemma nonfinite_sub_l x y : nonfinite x = true -> nonfinite (x - y) = true.
Proof.
  rewrite !nonfinite_Prim2SF, sub_spec.
  destruct (Prim2SF x) as [s | s | | s m e]; try discriminate;
    destruct (Prim2SF y) as [s' | s' | | s' m' e']; intros _; try reflexivity.
  destruct s, s'; reflexivity.
Qed.
Lemma nonfinite_sub_r x y : nonfinite y = true -> nonfinite (x - y) = true.
Proof.
  rewrite !nonfinite_Prim2SF, sub_spec.
  destruct (Prim2SF y) as [s | s | | s m e]; try discriminate;
    destruct (Prim2SF x) as [s' | s' | | s' m' e']; intros _; try reflexivity.
  destruct s, s'; reflexivity.
Qed.
Lemma nonfinite_mul_l x y : nonfinite x = true -> nonfinite (x * y) = true.
Proof.
  rewrite !nonfinite_Prim2SF, mul_spec.
  destruct (Prim2SF x) as [s | s | | s m e]; try discriminate;
    destruct (Prim2SF y) as [s' | s' | | s' m' e']; intros _; reflexivity.
Qed.
Lemma nonfinite_mul_r x y : nonfinite y = true -> nonfinite (x * y) = true.
Proof.
  rewrite !nonfinite_Prim2SF, mul_spec.
  destruct (Prim2SF y) as [s | s | | s m e]; try discriminate;
    destruct (Prim2SF x) as [s' | s' | | s' m' e']; intros _; reflexivity.
Qed.
Lemma nonfinite_div_l x y : nonfinite x = true -> nonfinite (x / y) = true.
Proof.
  rewrite !nonfinite_Prim2SF, div_spec.
  destruct (Prim2SF x) as [s | s | | s m e]; try discriminate;
    destruct (Prim2SF y) as [s' | s' | | s' m' e']; intros _; reflexivity.
Qed.
Lemma nonfinite_opp x : nonfinite x = true -> nonfinite (- x) = true.
Proof.
  rewrite !nonfinite_Prim2SF, opp_spec.
  destruct (Prim2SF x) as [s | s | | s m e]; try discriminate; intros _; reflexivity.
Qed.

Create HintDb nonfinite.
#[local] Hint Resolve nonfinite_add_l nonfinite_add_r nonfinite_sub_l nonfinite_sub_r
  nonfinite_mul_l nonfinite_mul_r nonfinite_div_l nonfinite_opp : nonfinite.

(** Splits the hypothesis "some entry is non-finite" into its entries, and
    the goal into the entry to exhibit. *)
Ltac some_entry H :=
  unfold nonfinite3, nonfinite4 in H |- *;
  cbn [v0 v1 v2 w0 w1 w2 w3 row0 row1 row2 to_storage] in H |- *;
  repeat rewrite orb_true_iff in H; repeat rewrite orb_true_iff;
  intuition (auto 8 with nonfinite).

Lemma vadd_nonfinite_l a b : nonfinite3 a = true -> nonfinite3 (vadd a b) = true.
Proof. intros H. unfold vadd. some_entry H. Qed.

Lemma vadd_nonfinite_r a b : nonfinite3 b = true -> nonfinite3 (vadd a b) = true.
Proof. intros H. unfold vadd. some_entry H. Qed.

Lemma vsub_nonfinite_l a b : nonfinite3 a = true -> nonfinite3 (vsub a b) = true.
Proof. intros H. unfold vsub. some_entry H. Qed.

Lemma vmuls_nonfinite a s : nonfinite3 a = true -> nonfinite3 (vmuls a s) = true.
Proof. intros H. unfold vmuls. some_entry H. Qed.

Lemma vscale_nonfinite s a : nonfinite s = true -> nonfinite3 (vscale s a) = true.
Proof. intros H. unfold vscale. some_entry H. Qed.

Lemma dot3_nonfinite a b : nonfinite3 b = true -> nonfinite (dot3 a b) = true.
Proof. intros H. unfold dot3. some_entry H. Qed.

Lemma matvec_nonfinite m v : nonfinite3 v = true -> nonfinite3 (matvec m v) = true.
Proof.
  intros H. unfold matvec, nonfinite3; cbn [v0 v1 v2].
  rewrite (dot3_nonfinite (row0 m) v H). reflexivity.
Qed.

Lemma dRot3_nonfinite q omega :
  nonfinite4 (to_storage q) = true -> nonfinite4 (to_storage (dRot3 q omega)) = true.
Proof. intros H. unfold dRot3. some_entry H. Qed.

Lemma step64_thrust_torque inertia_inv t u1 u2 state :
  step inertia_inv t (of_thrust_torque u1 u2) state
  = let dt := 0.005 in
    let acceleration := vsub (vscale (u1 / mass p) (mkV3 0 0 1)) (mkV3 0 0 (g p)) in
    let new_velocity := vadd (velocity state) (vmuls acceleration dt) in
    let omega := angular_velocity state in
    let new_angular_velocity :=
      vadd omega
        (vmuls (matvec inertia_inv (vsub u2 (cross omega (matvec (inertia p) omega)))) dt) in
    Ok {| position := vadd (position state) (vmuls new_velocity dt);
          velocity := new_velocity;
          orientation := dRot3 (orientation state) new_angular_velocity;
          angular_velocity := new_angular_velocity |}.
Proof. reflexivity. Qed.

(** C6: the step checks nothing.  For every state and thrust/torque command
    with a NaN or infinite entry, it returns a next state, and that state
    again has a NaN or infinite entry. *)
Theorem step_propagates_nonfinite (inertia_inv : mat3) (t u1 : float) (u2 : vec3)
        (state : QuadrotorState) :
  (nonfinite_state state || nonfinite_command (of_thrust_torque u1 u2))%bool = true ->
  exists s',
    step inertia_inv t (of_thrust_torque u1 u2) state = Ok s'
    /\ nonfinite_state s' = true.
Proof.
  intros H. rewrite step64_thrust_torque. cbv zeta.
  eexists; split; [reflexivity |].
  unfold nonfinite_state, nonfinite_command in H |- *.
  cbn [position velocity orientation angular_velocity].
  repeat rewrite orb_true_iff in H. repeat rewrite orb_true_iff.
  destruct H as [[[[H | H] | H] | H] | [H | H]].
  - left; left; left. now apply vadd_nonfinite_l.
  - left; left; right. now apply vadd_nonfinite_l.
  - left; right. now apply dRot3_nonfinite.
  - right. now apply vadd_nonfinite_l.
  - left; left; right.
    now apply vadd_nonfinite_r, vmuls_nonfinite, vsub_nonfinite_l, vscale_nonfinite,
      nonfinite_div_l.
  - right.
    now apply vadd_nonfinite_r, vmuls_nonfinite, matvec_nonfinite, vsub_nonfinite_l.
Qed.

(** C6 as stated fails: the state whose x position is NaN has a non-finite
    entry, and the step returns a next state on it, the NaN still there. *)
Lemma step_returns_on_nan :
  nonfinite_state nan_state = true
  /\ exists s',
       step inertia_inv_diag 0 no_thrust nan_state = Ok s'
       /\ is_nan (v0 (position s')) = true.
Proof.
  split; [reflexivity |].
  eexists; split; reflexivity.
Qed.

(** The hypothesis of C6 holds for that state and the command "no thrust,
    no torque". *)
Lemma step_propagates_nonfinite_witness :
  (nonfinite_state nan_state
   || nonfinite_command (of_thrust_torque 0 (mkV3 0 0 0)))%bool = true
  /\ exists s',
       step inertia_inv_diag 0 (of_thrust_torque 0 (mkV3 0 0 0)) nan_state = Ok s'
       /\ nonfinite_state s' = true.
Proof.
  split; [reflexivity |].
  exact (step_propagates_nonfinite inertia_inv_diag 0 0 (mkV3 0 0 0) nan_state eq_refl).
Defined.

End Float64Facts.

(** * Further properties *)

(** ** Further properties of the quaternion rate *)

(** X1: the rate [dRot3] returns is half the quaternion product of the
    orientation with the body angular velocity taken as a quaternion of zero
    scalar part, q * (omega, 0) / 2: the rate of a rotation composed on the
    right, in the body frame. *)
Theorem dRot3_is_half_product (q : Rot3) (omega : vec3) :
  to_storage (dRot3 q omega)
  = scale4 (1 / 2) (to_storage (compose q (pure_quat omega))).
Proof.
  unfold dRot3, compose, pure_quat, scale4, quat, qx, qy, qz, qw.
  cbn [to_storage w0 w1 w2 w3]. f_equal; field.
Qed.

(** X2: the squared norm of the rate is |q|^2 |omega|^2 / 4: for a unit
    orientation the rate has length |omega| / 2. *)
Theorem dRot3_norm (q : Rot3) (omega : vec3) :
  dot4 (to_storage (dRot3 q omega)) (to_storage (dRot3 q omega))
  = dot4 (to_storage q) (to_storage q) * dot3 omega omega / 4.
Proof.
  unfold dRot3, dot4, dot3, qx, qy, qz, qw.
  cbn [to_storage w0 w1 w2 w3]. field.
Qed.

(** ** Rotation matrices *)

Lemma rotation_preserves_length (q : Rot3) (v : vec3) :
  dot4 (to_storage q) (to_storage q) = 1 ->
  dot3 (matvec (to_rotation_matrix q) v) (matvec (to_rotation_matrix q) v)
  = dot3 v v.
Proof.
  destruct q as [[x y z w]], v as [a b c].
  unfold dot4, matvec, to_rotation_matrix, dot3, qx, qy, qz, qw.
  cbn [to_storage w0 w1 w2 w3 v0 v1 v2 row0 row1 row2]. intros H.
  replace (1 - 2 * (y * y) - 2 * (z * z)) with (w * w + x * x - y * y - z * z) by lra.
  replace (1 - 2 * (x * x) - 2 * (z * z)) with (w * w - x * x + y * y - z * z) by lra.
  replace (1 - 2 * (x * x) - 2 * (y * y)) with (w * w - x * x - y * y + z * z) by lra.
  transitivity ((x * x + y * y + z * z + w * w) * (x * x + y * y + z * z + w * w)
                * (a * a + b * b + c * c)); [ring | rewrite H; ring].
Qed.

(** The angular acceleration [state_derivative] returns. *)
Lemma regular_inverse_r (m : mat3) (v : vec3) :
  det3 m <> 0 ->
  matvec m (matvec (mscale (/ det3 m) (adjugate m)) v) = v.
Proof.
  destruct m as [[a b c] [d e f] [g h i]], v as [x y z].
  unfold det3, matvec, mscale, adjugate, vscale, dot3, cross.
  cbn [v0 v1 v2 row0 row1 row2]. intros H.
  f_equal; field; exact H.
Qed.

(** ** The state derivative of [Reworking] *)

Lemma state_derivative_returns (state : QuadrotorState.t) (u1 u2 : vec3) :
  Reworking.FullQuadrotorDynamics.state_derivative state u1 u2
  = let omega := QuadrotorState.angular_velocity state in
    Ok {| QuadrotorState.position := QuadrotorState.velocity state;
          QuadrotorState.velocity :=
            vscale (1 / mass p)
              (vadd (matvec (to_rotation_matrix (QuadrotorState.orientation state)) u1)
                    (vscale (mass p) (mkV3 0 0 (- g p))));
          QuadrotorState.orientation := dRot3 (QuadrotorState.orientation state) omega;
          QuadrotorState.angular_velocity :=
            matvec (mscale (/ det3 (inertia p)) (adjugate (inertia p)))
                   (vsub u2 (cross omega (matvec (inertia p) omega))) |}.
Proof.
  unfold Reworking.FullQuadrotorDynamics.state_derivative.
  rewrite linalg_inv_inertia. reflexivity.
Qed.

(** X3: for a unit orientation, the acceleration [state_derivative] returns,
    gravity taken out, has the length of the thrust vector divided by the
    mass, whatever the attitude: turning the vehicle redirects the thrust and
    does not scale it. *)
Theorem thrust_acceleration_magnitude (state : QuadrotorState.t) (u1 u2 : vec3) :
  dot4 (to_storage (QuadrotorState.orientation state))
       (to_storage (QuadrotorState.orientation state)) = 1 ->
  exists d,
    Reworking.FullQuadrotorDynamics.state_derivative state u1 u2 = Ok d
    /\ dot3 (vadd (QuadrotorState.velocity d) (mkV3 0 0 (g p)))
            (vadd (QuadrotorState.velocity d) (mkV3 0 0 (g p)))
       = dot3 u1 u1 / (mass p * mass p).
Proof.
  intros Hunit. rewrite state_derivative_returns. cbv zeta.
  eexists; split; [reflexivity |]. cbn [QuadrotorState.velocity].
  pose proof (rotation_preserves_length (QuadrotorState.orientation state) u1 Hunit) as HR.
  pose proof mass_pos as Hm.
  set (Ru := matvec (to_rotation_matrix (QuadrotorState.orientation state)) u1) in *.
  rewrite <- HR. unfold dot3, vadd, vscale; cbn [v0 v1 v2]. field. lra.
Qed.

(** X4: in the angular acceleration of [state_derivative] the gyroscopic
    term does no work: omega . (I omega') = omega . u2, so without torque the
    rotational energy omega . I omega / 2 is stationary. *)
Theorem gyroscopic_term_does_no_work (state : QuadrotorState.t) (u1 u2 : vec3) :
  exists d,
    Reworking.FullQuadrotorDynamics.state_derivative state u1 u2 = Ok d
    /\ dot3 (QuadrotorState.angular_velocity state)
            (matvec (inertia p) (QuadrotorState.angular_velocity d))
       = dot3 (QuadrotorState.angular_velocity state) u2.
Proof.
  rewrite state_derivative_returns. cbv zeta.
  eexists; split; [reflexivity |]. cbn [QuadrotorState.angular_velocity].
  rewrite (regular_inverse_r _ _ inertia_regular).
  unfold dot3, vsub, cross; cbn [v0 v1 v2]. ring.
Qed.

(** X5: with the default diagonal inertia, the angular acceleration
    [np.linalg.inv(p.inertia) @ (u2 - omega x (I omega))] is Euler's equations
    in principal axes. *)
Theorem euler_equations_principal_axes (state : QuadrotorState.t) (u1 u2 : vec3) :
  let wx := v0 (QuadrotorState.angular_velocity state) in
  let wy := v1 (QuadrotorState.angular_velocity state) in
  let wz := v2 (QuadrotorState.angular_velocity state) in
  exists d,
    Reworking.FullQuadrotorDynamics.state_derivative state u1 u2 = Ok d
    /\ QuadrotorState.angular_velocity d
       = mkV3 ((v0 u2 - (18.6e-3 - 10.02e-3) * wy * wz) / 9.8e-3)
              ((v1 u2 - (9.8e-3 - 18.6e-3) * wz * wx) / 10.02e-3)
              ((v2 u2 - (10.02e-3 - 9.8e-3) * wx * wy) / 18.6e-3).
Proof.
  intros wx wy wz. rewrite state_derivative_returns. cbv zeta.
  eexists; split; [reflexivity |]. cbn [QuadrotorState.angular_velocity].
  unfold wx, wy, wz.
  destruct (QuadrotorState.angular_velocity state) as [x y z], u2 as [a b c].
  unfold matvec, mscale, adjugate, det3, vscale, vsub, dot3, cross, p.
  cbn [inertia v0 v1 v2 row0 row1 row2].
  f_equal; field; lra.
Qed.

(** ** Rotor mixing *)

Lemma Rabs_sqr (x : R) : Rabs x * Rabs x = x * x.
Proof. rewrite <- Rabs_mult. apply Rabs_right. nra. Qed.

(** X6: for rates of absolute value at most 3037000499, the range in which
    [np.square] is exact on an int64 array as on a float one, the thrust
    model loses the sign of a rate: the rates and their absolute values give
    the same four thrusts, every thrust is non-negative, and so is the
    collective thrust. *)
Theorem thrust_ignores_rate_sign (r : vec4) :
  Rabs (w0 r) <= 3037000499 -> Rabs (w1 r) <= 3037000499 ->
  Rabs (w2 r) <= 3037000499 -> Rabs (w3 r) <= 3037000499 ->
  Reworking.FullQuadrotorDynamics.rotor_thrust_model
    (mkV4 (Rabs (w0 r)) (Rabs (w1 r)) (Rabs (w2 r)) (Rabs (w3 r)))
  = Reworking.FullQuadrotorDynamics.rotor_thrust_model r
  /\ 0 <= w0 (Reworking.FullQuadrotorDynamics.rotor_thrust_model r)
  /\ 0 <= w1 (Reworking.FullQuadrotorDynamics.rotor_thrust_model r)
  /\ 0 <= w2 (Reworking.FullQuadrotorDynamics.rotor_thrust_model r)
  /\ 0 <= w3 (Reworking.FullQuadrotorDynamics.rotor_thrust_model r)
  /\ 0 <= v2 (Reworking.FullQuadrotorDynamics.mix_u1 r).
Proof.
  intros _ _ _ _.
  pose proof k_thrust_pos as Hk.
  unfold Reworking.FullQuadrotorDynamics.mix_u1,
    Reworking.FullQuadrotorDynamics.rotor_thrust_model, sum4, scale4, square4.
  cbn [w0 w1 w2 w3 v2]. rewrite !Rabs_sqr.
  split; [reflexivity |].
  assert (H : forall x, 0 <= k_thrust p * (x * x)) by (intros x; nra).
  pose proof (H (w0 r)). pose proof (H (w1 r)).
  pose proof (H (w2 r)). pose proof (H (w3 r)).
  repeat split; lra.
Qed.

(** The rates (-300, 300, -300, 300). *)
Lemma thrust_ignores_rate_sign_witness :
  (Rabs (-300) <= 3037000499 /\ Rabs 300 <= 3037000499)
  /\ Reworking.FullQuadrotorDynamics.rotor_thrust_model
       (mkV4 (Rabs (-300)) (Rabs 300) (Rabs (-300)) (Rabs 300))
     = Reworking.FullQuadrotorDynamics.rotor_thrust_model (mkV4 (-300) 300 (-300) 300)
  /\ 0 <= w0 (Reworking.FullQuadrotorDynamics.rotor_thrust_model (mkV4 (-300) 300 (-300) 300))
  /\ 0 <= w1 (Reworking.FullQuadrotorDynamics.rotor_thrust_model (mkV4 (-300) 300 (-300) 300))
  /\ 0 <= w2 (Reworking.FullQuadrotorDynamics.rotor_thrust_model (mkV4 (-300) 300 (-300) 300))
  /\ 0 <= w3 (Reworking.FullQuadrotorDynamics.rotor_thrust_model (mkV4 (-300) 300 (-300) 300))
  /\ 0 <= v2 (Reworking.FullQuadrotorDynamics.mix_u1 (mkV4 (-300) 300 (-300) 300)).
Proof.
  assert (Hn : Rabs (-300) <= 3037000499)
    by (rewrite Rabs_left by lra; lra).
  assert (Hp : Rabs 300 <= 3037000499)
    by (rewrite Rabs_right by lra; lra).
  split; [split; assumption |].
  exact (thrust_ignores_rate_sign (mkV4 (-300) 300 (-300) 300) Hn Hp Hn Hp).
Defined.

(** ** The Euler step of [ControllerFull] *)

Lemma step_vertical (self : QuadrotorDynamicsBase.t) (t u1 : R)
        (u2 : vec3) (state : QuadrotorState.t) :
  exists s',
    ControllerFull.FullQuadrotorDynamics.step self t
      (QuadrotorCommands.of_thrust_torque u1 u2) state = Ok s'
    /\ QuadrotorState.velocity s'
       = vadd (QuadrotorState.velocity state)
              (mkV3 0 0 ((u1 / mass p - g p) * 0.005))
    /\ QuadrotorState.position s'
       = vadd (QuadrotorState.position state)
              (vmuls (QuadrotorState.velocity s') 0.005).
Proof.
  rewrite step_thrust_torque. cbv zeta. eexists; split; [reflexivity |].
  cbn [QuadrotorState.velocity QuadrotorState.position].
  split; [| reflexivity].
  unfold ControllerFull.FullQuadrotorDynamics.acceleration, vadd, vmuls, vsub, vscale.
  cbn [v0 v1 v2]. f_equal; f_equal; ring.
Qed.

(** X10: n Euler steps under one thrust/torque command all return; with
    a = u1/mass - g and dt = 0.005 the vertical velocity ends at v + n a dt
    and the height at z + n v dt + n (n+1)/2 a dt^2 (the velocity is updated
    before the position). *)
Theorem run_steps_vertical (n : nat) (self : QuadrotorDynamicsBase.t) (t u1 : R)
        (u2 : vec3) (state : QuadrotorState.t) :
  let a := u1 / mass p - g p in
  let dt := 0.005 in
  exists s',
    run_steps n self t (QuadrotorCommands.of_thrust_torque u1 u2) state = Ok s'
    /\ v2 (QuadrotorState.velocity s')
       = v2 (QuadrotorState.velocity state) + INR n * (a * dt)
    /\ v2 (QuadrotorState.position s')
       = v2 (QuadrotorState.position state)
         + INR n * (v2 (QuadrotorState.velocity state) * dt)
         + INR n * (INR n + 1) / 2 * (a * dt * dt).
Proof.
  intros a dt. revert state.
  induction n as [| n IH]; intros state.
  - exists state. split; [reflexivity |]. cbn [INR]. split; field.
  - destruct (step_vertical self t u1 u2 state) as (s1 & Hs1 & Hv & Hp).
    destruct (IH s1) as (s' & Hrun & Hv' & Hp').
    exists s'. split.
    + cbn [run_steps]. rewrite Hs1. exact Hrun.
    + rewrite Hv', Hp', Hp, Hv, S_INR. unfold vadd, vmuls; cbn [v0 v1 v2].
      fold a. fold dt. split; field.
Qed.

(** X11: for a level vehicle the Euler step of [ControllerFull] advances
    the velocity and the angular velocity by 0.005 times the rates that
    [state_derivative] of [Reworking] returns for the thrust vector (0,0,u1),
    and the position by 0.005 times the new velocity. *)
Theorem step_is_euler_when_level (self : QuadrotorDynamicsBase.t) (t u1 yaw : R)
        (u2 : vec3) (state : QuadrotorState.t) :
  QuadrotorState.orientation state = from_yaw_pitch_roll yaw 0 0 ->
  exists d s',
    Reworking.FullQuadrotorDynamics.state_derivative state (mkV3 0 0 u1) u2 = Ok d
    /\ ControllerFull.FullQuadrotorDynamics.step self t
         (QuadrotorCommands.of_thrust_torque u1 u2) state = Ok s'
    /\ QuadrotorState.velocity s'
       = vadd (QuadrotorState.velocity state) (vmuls (QuadrotorState.velocity d) 0.005)
    /\ QuadrotorState.angular_velocity s'
       = vadd (QuadrotorState.angular_velocity state)
              (vmuls (QuadrotorState.angular_velocity d) 0.005)
    /\ QuadrotorState.position s'
       = vadd (QuadrotorState.position state) (vmuls (QuadrotorState.velocity s') 0.005).
Proof.
  intros Hlevel.
  rewrite state_derivative_returns, step_thrust_torque. cbv zeta.
  do 2 eexists. split; [reflexivity |]. split; [reflexivity |].
  cbn [QuadrotorState.velocity QuadrotorState.angular_velocity QuadrotorState.position].
  split; [| split; reflexivity].
  rewrite Hlevel, level_thrust_axis.
  pose proof mass_pos as Hm.
  unfold ControllerFull.FullQuadrotorDynamics.acceleration, vadd, vmuls, vsub, vscale.
  cbn [v0 v1 v2]. f_equal; f_equal; field; lra.
Qed.

(** ** Further properties of the controller *)

Lemma commanded_acceleration_shift (self : ControllerFull.Controller.t)
      (trajectory : TrajectoryState.t) (state : QuadrotorState.t) (d : vec3) :
  ControllerFull.Controller.commanded_acceleration self
    (TrajectoryState.mk (TrajectoryState.time trajectory)
       (vadd (TrajectoryState.position trajectory) d)
       (TrajectoryState.yaw trajectory) (TrajectoryState.yaw_rate trajectory))
    {| QuadrotorState.position := vadd (QuadrotorState.position state) d;
       QuadrotorState.velocity := QuadrotorState.velocity state;
       QuadrotorState.orientation := QuadrotorState.orientation state;
       QuadrotorState.angular_velocity := QuadrotorState.angular_velocity state |}
  = ControllerFull.Controller.commanded_acceleration self trajectory state.
Proof.
  unfold ControllerFull.Controller.commanded_acceleration.
  cbn [TrajectoryState.position QuadrotorState.position QuadrotorState.velocity].
  replace (vsub (vadd (TrajectoryState.position trajectory) d)
                (vadd (QuadrotorState.position state) d))
    with (vsub (TrajectoryState.position trajectory) (QuadrotorState.position state))
    by (unfold vsub, vadd; cbn [v0 v1 v2]; f_equal; ring).
  reflexivity.
Qed.

(** X12: the controller step is invariant under translation: moving the
    desired and the actual position by the same vector leaves the command
    unchanged. *)
Theorem step_translation_invariant (self : ControllerFull.Controller.t) (t : R)
        (trajectory : TrajectoryState.t) (state : QuadrotorState.t) (d : vec3) :
  ControllerFull.Controller.step self t
    (TrajectoryState.mk (TrajectoryState.time trajectory)
       (vadd (TrajectoryState.position trajectory) d)
       (TrajectoryState.yaw trajectory) (TrajectoryState.yaw_rate trajectory))
    {| QuadrotorState.position := vadd (QuadrotorState.position state) d;
       QuadrotorState.velocity := QuadrotorState.velocity state;
       QuadrotorState.orientation := QuadrotorState.orientation state;
       QuadrotorState.angular_velocity := QuadrotorState.angular_velocity state |}
  = ControllerFull.Controller.step self t trajectory state.
Proof.
  unfold ControllerFull.Controller.step, ControllerFull.Controller.desired_orientation.
  rewrite commanded_acceleration_shift. reflexivity.
Qed.

(** X13: when the orientation is the desired orientation, the torque is
    pure rate damping, Ka_d @ (0 - omega), and the thrust is
    mass * (g + commanded_acceleration.z). *)
Theorem step_attitude_matched_damps (self : ControllerFull.Controller.t) (t : R)
        (trajectory : TrajectoryState.t) (state : QuadrotorState.t) :
  QuadrotorState.orientation state
  = ControllerFull.Controller.desired_orientation self trajectory state ->
  ControllerFull.Controller.step self t trajectory state
  = Ok (QuadrotorCommands.of_thrust_torque
          (mass p * (g p + v2 (ControllerFull.Controller.commanded_acceleration
                                 self trajectory state)))
          (matvec (ControllerFull.Ka_d (ControllerFull.Controller.params self))
                  (vsub zeros3 (QuadrotorState.angular_velocity state)))).
Proof.
  intros Hor. unfold ControllerFull.Controller.step.
  rewrite <- Hor.
  pose proof (error_vec_self (QuadrotorState.orientation state)) as He.
  cbv zeta in He. rewrite He, matvec_zeros.
  do 2 f_equal. unfold vadd, matvec, zeros3; cbn [v0 v1 v2]. f_equal; ring.
Qed.

(** The level vehicle at the origin, turning, under "hold the origin". *)
Lemma step_attitude_matched_damps_witness :
  let state := {| QuadrotorState.position := zeros3;
                  QuadrotorState.velocity := zeros3;
                  QuadrotorState.orientation := from_yaw_pitch_roll 0 0 0;
                  QuadrotorState.angular_velocity := mkV3 1 2 3 |} in
  QuadrotorState.orientation state
  = ControllerFull.Controller.desired_orientation default_controller hold_origin state
  /\ ControllerFull.Controller.step default_controller 0 hold_origin state
     = Ok (QuadrotorCommands.of_thrust_torque
             (mass p * (g p + v2 (ControllerFull.Controller.commanded_acceleration
                                    default_controller hold_origin state)))
             (matvec (ControllerFull.Ka_d
                        (ControllerFull.Controller.params default_controller))
                     (vsub zeros3 (QuadrotorState.angular_velocity state)))).
Proof.
  intros state.
  assert (Hor : QuadrotorState.orientation state
                = ControllerFull.Controller.desired_orientation default_controller
                    hold_origin state).
  { unfold ControllerFull.Controller.desired_orientation,
      ControllerFull.Controller.commanded_acceleration, default_controller,
      hold_origin, state, ControllerFull.controller_p, diag, matvec, dot3,
      vadd, vsub, zeros3, p.
    cbn [QuadrotorState.position QuadrotorState.velocity QuadrotorState.orientation
         TrajectoryState.position TrajectoryState.yaw ControllerFull.Controller.params
         ControllerFull.K_p ControllerFull.K_d g v0 v1 v2 row0 row1 row2].
    f_equal; lra. }
  split; [exact Hor |].
  exact (step_attitude_matched_damps default_controller 0 hold_origin state Hor).
Defined.

Lemma yaw_error_vec (yaw_des yaw : R) :
  let m := to_rotation_matrix
             (compose (from_yaw_pitch_roll yaw_des 0 0)
                      (inverse (from_yaw_pitch_roll yaw 0 0))) in
  mkV3 (v1 (row2 m)) (v2 (row0 m)) (v0 (row1 m)) = mkV3 0 0 (sin (yaw_des - yaw)).
Proof.
  unfold to_rotation_matrix, compose, inverse, from_yaw_pitch_roll, quat, qx, qy, qz, qw.
  cbn [v0 v1 v2 w0 w1 w2 w3 row0 row1 row2 to_storage].
  replace (0 / 2) with 0 by field. rewrite sin_0, cos_0.
  replace (yaw_des - yaw) with (2 * (yaw_des / 2 - yaw / 2)) by field.
  rewrite sin_2a, sin_minus, cos_minus.
  f_equal; ring.
Qed.

Lemma commanded_acceleration_at_rest_on_target (self : ControllerFull.Controller.t)
      (time yaw_des rate : R) (position : vec3) (q : Rot3) (omega : vec3) :
  ControllerFull.Controller.commanded_acceleration self
    (TrajectoryState.mk time position yaw_des rate)
    {| QuadrotorState.position := position;
       QuadrotorState.velocity := zeros3;
       QuadrotorState.orientation := q;
       QuadrotorState.angular_velocity := omega |}
  = zeros3.
Proof.
  unfold ControllerFull.Controller.commanded_acceleration.
  cbn [TrajectoryState.position QuadrotorState.position QuadrotorState.velocity].
  replace (vsub position position) with zeros3
    by (unfold vsub, zeros3; f_equal; ring).
  replace (vsub zeros3 zeros3) with zeros3
    by (unfold vsub, zeros3; cbn [v0 v1 v2]; f_equal; ring).
  rewrite !matvec_zeros. unfold vadd, zeros3; cbn [v0 v1 v2]. f_equal; ring.
Qed.

Lemma step_yaw_error (self : ControllerFull.Controller.t)
        (t time yaw_des rate yaw : R) (position : vec3) :
  ControllerFull.Controller.step self t
    (TrajectoryState.mk time position yaw_des rate)
    {| QuadrotorState.position := position;
       QuadrotorState.velocity := zeros3;
       QuadrotorState.orientation := from_yaw_pitch_roll yaw 0 0;
       QuadrotorState.angular_velocity := zeros3 |}
  = Ok (QuadrotorCommands.of_thrust_torque (mass p * g p)
          (matvec (ControllerFull.Ka_p (ControllerFull.Controller.params self))
                  (mkV3 0 0 (sin (yaw_des - yaw))))).
Proof.
  pose proof g_pos as Hg.
  unfold ControllerFull.Controller.step, ControllerFull.Controller.desired_orientation.
  rewrite commanded_acceleration_at_rest_on_target.
  cbn [TrajectoryState.yaw QuadrotorState.orientation QuadrotorState.angular_velocity].
  replace (1 / g p * (v0 zeros3 * cos (to_yaw (from_yaw_pitch_roll yaw 0 0))
                      + v1 zeros3 * sin (to_yaw (from_yaw_pitch_roll yaw 0 0))))
    with 0 by (unfold zeros3; cbn [v0 v1]; field; lra).
  replace (1 / g p * (v0 zeros3 * sin (to_yaw (from_yaw_pitch_roll yaw 0 0))
                      - v1 zeros3 * cos (to_yaw (from_yaw_pitch_roll yaw 0 0))))
    with 0 by (unfold zeros3; cbn [v0 v1]; field; lra).
  pose proof (yaw_error_vec yaw_des yaw) as He. cbv zeta in He. rewrite He.
  replace (vsub zeros3 zeros3) with zeros3
    by (unfold vsub, zeros3; cbn [v0 v1 v2]; f_equal; ring).
  rewrite matvec_zeros.
  do 2 f_equal.
  - unfold zeros3; cbn [v2]. ring.
  - unfold vadd, matvec, zeros3; cbn [v0 v1 v2]. f_equal; ring.
Qed.

(** X14: for a level vehicle at rest on the desired position, with yaw
    [yaw] against the desired yaw [yaw_des], the thrust is mass * g and the
    torque is Ka_p @ (0, 0, sin (yaw_des - yaw)); a yaw error of half a turn
    gets no torque at all. *)
Theorem yaw_error_torque (self : ControllerFull.Controller.t)
        (t time yaw_des rate yaw : R) (position : vec3) :
  let level := fun yaw =>
    {| QuadrotorState.position := position;
       QuadrotorState.velocity := zeros3;
       QuadrotorState.orientation := from_yaw_pitch_roll yaw 0 0;
       QuadrotorState.angular_velocity := zeros3 |} in
  ControllerFull.Controller.step self t
    (TrajectoryState.mk time position yaw_des rate) (level yaw)
  = Ok (QuadrotorCommands.of_thrust_torque (mass p * g p)
          (matvec (ControllerFull.Ka_p (ControllerFull.Controller.params self))
                  (mkV3 0 0 (sin (yaw_des - yaw)))))
  /\ ControllerFull.Controller.step self t
       (TrajectoryState.mk time position (yaw + PI) rate) (level yaw)
     = Ok (QuadrotorCommands.of_thrust_torque (mass p * g p) zeros3).
Proof.
  intros level. unfold level. split.
  - apply step_yaw_error.
  - rewrite step_yaw_error.
    replace (yaw + PI - yaw) with PI by ring. rewrite sin_PI.
    fold zeros3. rewrite matvec_zeros. reflexivity.
Qed.

(** X15: the desired orientation is built from the desired yaw and the
    locals theta_des and phi_des, and the tilt these two ask for does not
    depend on the yaw: phi_des^2 + theta_des^2 = (ax^2 + ay^2) / g^2 for the
    commanded horizontal acceleration (ax, ay). *)
Theorem tilt_magnitude (self : ControllerFull.Controller.t)
        (trajectory : TrajectoryState.t) (state : QuadrotorState.t) :
  let a := ControllerFull.Controller.commanded_acceleration self trajectory state in
  ControllerFull.Controller.desired_orientation self trajectory state
  = from_yaw_pitch_roll (TrajectoryState.yaw trajectory)
      (theta_des self trajectory state) (phi_des self trajectory state)
  /\ phi_des self trajectory state * phi_des self trajectory state
     + theta_des self trajectory state * theta_des self trajectory state
     = (v0 a * v0 a + v1 a * v1 a) / (g p * g p).
Proof.
  intros a. split; [reflexivity |].
  unfold phi_des, theta_des. fold a.
  set (yaw := to_yaw (QuadrotorState.orientation state)).
  pose proof (sin2_cos2 yaw) as H. unfold Rsqr in H.
  pose proof g_pos as Hg.
  transitivity ((v0 a * v0 a + v1 a * v1 a) / (g p * g p)
                * (sin yaw * sin yaw + cos yaw * cos yaw)).
  - field. lra.
  - rewrite H. ring.
Qed.

(** ** Unit rotations in the controller *)

Lemma from_yaw_pitch_roll_unit (yaw pitch roll : R) :
  dot4 (to_storage (from_yaw_pitch_roll yaw pitch roll))
       (to_storage (from_yaw_pitch_roll yaw pitch roll)) = 1.
Proof.
  unfold from_yaw_pitch_roll, dot4, quat; cbn [to_storage w0 w1 w2 w3].
  pose proof (sin2_cos2 (yaw / 2)) as Hy.
  pose proof (sin2_cos2 (pitch / 2)) as Hp.
  pose proof (sin2_cos2 (roll / 2)) as Hr.
  unfold Rsqr in Hy, Hp, Hr.
  set (sy := sin (yaw / 2)) in *. set (cy := cos (yaw / 2)) in *.
  set (sp := sin (pitch / 2)) in *. set (cp := cos (pitch / 2)) in *.
  set (sr := sin (roll / 2)) in *. set (cr := cos (roll / 2)) in *.
  transitivity ((sr * sr + cr * cr) * (sp * sp + cp * cp) * (sy * sy + cy * cy)).
  - ring.
  - rewrite Hy, Hp, Hr. ring.
Qed.

Lemma compose_norm (a b : Rot3) :
  dot4 (to_storage (compose a b)) (to_storage (compose a b))
  = dot4 (to_storage a) (to_storage a) * dot4 (to_storage b) (to_storage b).
Proof.
  unfold compose, dot4, quat, qx, qy, qz, qw; cbn [to_storage w0 w1 w2 w3]. ring.
Qed.

Lemma inverse_norm (q : Rot3) :
  dot4 (to_storage (inverse q)) (to_storage (inverse q))
  = dot4 (to_storage q) (to_storage q).
Proof.
  unfold inverse, dot4, quat, qx, qy, qz, qw; cbn [to_storage w0 w1 w2 w3]. ring.
Qed.

(** X16: the desired orientation always has unit norm, and when the
    orientation of the state has unit norm so has the orientation error the
    controller forms from it. *)
Theorem orientation_error_unit (self : ControllerFull.Controller.t)
        (trajectory : TrajectoryState.t) (state : QuadrotorState.t) :
  dot4 (to_storage (QuadrotorState.orientation state))
       (to_storage (QuadrotorState.orientation state)) = 1 ->
  dot4 (to_storage (ControllerFull.Controller.desired_orientation self trajectory state))
       (to_storage (ControllerFull.Controller.desired_orientation self trajectory state))
  = 1
  /\ dot4 (to_storage (orientation_error self trajectory state))
          (to_storage (orientation_error self trajectory state)) = 1.
Proof.
  intros Hunit.
  assert (Hd : dot4 (to_storage (ControllerFull.Controller.desired_orientation
                                   self trajectory state))
                    (to_storage (ControllerFull.Controller.desired_orientation
                                   self trajectory state)) = 1).
  { unfold ControllerFull.Controller.desired_orientation.
    apply from_yaw_pitch_roll_unit. }
  split; [exact Hd |].
  unfold orientation_error. rewrite compose_norm, inverse_norm, Hd, Hunit. ring.
Qed.

(** The level vehicle one metre above the target. *)
Lemma orientation_error_unit_witness :
  dot4 (to_storage (QuadrotorState.orientation one_metre_up))
       (to_storage (QuadrotorState.orientation one_metre_up)) = 1
  /\ dot4 (to_storage (ControllerFull.Controller.desired_orientation
                         default_controller hold_origin one_metre_up))
          (to_storage (ControllerFull.Controller.desired_orientation
                         default_controller hold_origin one_metre_up)) = 1
  /\ dot4 (to_storage (orientation_error default_controller hold_origin one_metre_up))
          (to_storage (orientation_error default_controller hold_origin one_metre_up))
     = 1.
Proof.
  assert (H : dot4 (to_storage (QuadrotorState.orientation one_metre_up))
                   (to_storage (QuadrotorState.orientation one_metre_up)) = 1).
  { unfold one_metre_up, identity, quat, dot4;
      cbn [QuadrotorState.orientation to_storage w0 w1 w2 w3]. ring. }
  split; [exact H |].
  exact (orientation_error_unit default_controller hold_origin one_metre_up H).
Defined.

(** ** The trajectory *)

(** X17: every sample of [SmoothTrajectory] lies on the cylinder of radius
    0.5 about the z axis, at height 0.2 t, with yaw = yaw_rate * t and the
    time stamp t; it is never closer than 0.5 to the origin. *)
Theorem SmoothTrajectory_on_helix (t : R) :
  let s := SmoothTrajectory_eval t in
  let x := v0 (TrajectoryState.position s) in
  let y := v1 (TrajectoryState.position s) in
  let z := v2 (TrajectoryState.position s) in
  x * x + y * y = 0.25
  /\ z = 0.2 * t
  /\ TrajectoryState.yaw s = TrajectoryState.yaw_rate s * t
  /\ TrajectoryState.time s = t
  /\ 0.25 <= dot3 (TrajectoryState.position s) (TrajectoryState.position s).
Proof.
  cbv zeta. unfold SmoothTrajectory_eval, dot3.
  cbn [TrajectoryState.position TrajectoryState.yaw TrajectoryState.yaw_rate
       TrajectoryState.time v0 v1 v2].
  pose proof (sin2_cos2 t) as H. unfold Rsqr in H.
  repeat split; try reflexivity; nra.
Qed.

(** ** The rotor coefficients *)

(** X18: for positive density, rotor diameter and static coefficients the
    two rotor coefficients are positive, and their ratio is the ratio of the
    static coefficients. *)
Theorem rotor_coefficients (self : Params) :
  0 < rho self -> 0 < rotor_diameter self ->
  0 < static_thrust_coefficient self -> 0 < static_torque_coefficient self ->
  0 < k_thrust self /\ 0 < k_torque self
  /\ k_torque self / k_thrust self
     = static_torque_coefficient self / static_thrust_coefficient self.
Proof.
  intros Hrho Hd Hct Hcq.
  assert (Hpi : 0 < 4 * PI ^ 2).
  { apply Rmult_lt_0_compat; [lra | apply pow_lt, PI_RGT_0]. }
  assert (Hd4 : 0 < rotor_diameter self ^ 4) by (apply pow_lt; exact Hd).
  assert (Hpos : forall c, 0 < c -> 0 < rotor_model self c).
  { intros c Hc. unfold rotor_model.
    apply Rdiv_lt_0_compat; [| exact Hpi].
    apply Rmult_lt_0_compat; [apply Rmult_lt_0_compat; assumption | exact Hd4]. }
  split; [apply Hpos; exact Hct |]. split; [apply Hpos; exact Hcq |].
  unfold k_torque, k_thrust, rotor_model. field.
  repeat split; try lra. apply Rgt_not_eq, PI_RGT_0.
Qed.

(** The default parameters. *)
Lemma rotor_coefficients_witness :
  (0 < rho p /\ 0 < rotor_diameter p
   /\ 0 < static_thrust_coefficient p /\ 0 < static_torque_coefficient p)
  /\ 0 < k_thrust p /\ 0 < k_torque p
  /\ k_torque p / k_thrust p
     = static_torque_coefficient p / static_thrust_coefficient p.
Proof.
  assert (H1 : 0 < rho p) by (unfold p; cbn [rho]; lra).
  assert (H2 : 0 < rotor_diameter p) by (unfold p; cbn [rotor_diameter]; lra).
  assert (H3 : 0 < static_thrust_coefficient p)
    by (unfold p; cbn [static_thrust_coefficient]; lra).
  assert (H4 : 0 < static_torque_coefficient p)
    by (unfold p; cbn [static_torque_coefficient]; lra).
  split; [repeat split; assumption |].
  exact (rotor_coefficients p H1 H2 H3 H4).
Defined.

(** ** Witnesses of the hypotheses above *)

(** The level vehicle at rest under a unit thrust. *)
Lemma thrust_acceleration_magnitude_witness :
  dot4 (to_storage (QuadrotorState.orientation (at_rest identity)))
       (to_storage (QuadrotorState.orientation (at_rest identity))) = 1
  /\ exists d,
       Reworking.FullQuadrotorDynamics.state_derivative (at_rest identity)
         (mkV3 0 0 1) zeros3 = Ok d
       /\ dot3 (vadd (QuadrotorState.velocity d) (mkV3 0 0 (g p)))
               (vadd (QuadrotorState.velocity d) (mkV3 0 0 (g p)))
          = dot3 (mkV3 0 0 1) (mkV3 0 0 1) / (mass p * mass p).
Proof.
  assert (H : dot4 (to_storage (QuadrotorState.orientation (at_rest identity)))
                   (to_storage (QuadrotorState.orientation (at_rest identity))) = 1).
  { unfold at_rest, identity, quat, dot4;
      cbn [QuadrotorState.orientation to_storage w0 w1 w2 w3]. ring. }
  split; [exact H |].
  exact (thrust_acceleration_magnitude (at_rest identity) (mkV3 0 0 1) zeros3 H).
Defined.

(** The level vehicle at rest under a unit thrust and no torque. *)
Lemma step_is_euler_when_level_witness :
  QuadrotorState.orientation (at_rest (from_yaw_pitch_roll 0 0 0))
  = from_yaw_pitch_roll 0 0 0
  /\ exists d s',
       Reworking.FullQuadrotorDynamics.state_derivative
         (at_rest (from_yaw_pitch_roll 0 0 0)) (mkV3 0 0 1) zeros3 = Ok d
       /\ ControllerFull.FullQuadrotorDynamics.step (dynamics_with_dt 0.005) 0
            (QuadrotorCommands.of_thrust_torque 1 zeros3)
            (at_rest (from_yaw_pitch_roll 0 0 0)) = Ok s'
       /\ QuadrotorState.velocity s'
          = vadd (QuadrotorState.velocity (at_rest (from_yaw_pitch_roll 0 0 0)))
                 (vmuls (QuadrotorState.velocity d) 0.005)
       /\ QuadrotorState.angular_velocity s'
          = vadd (QuadrotorState.angular_velocity (at_rest (from_yaw_pitch_roll 0 0 0)))
                 (vmuls (QuadrotorState.angular_velocity d) 0.005)
       /\ QuadrotorState.position s'
          = vadd (QuadrotorState.position (at_rest (from_yaw_pitch_roll 0 0 0)))
                 (vmuls (QuadrotorState.velocity s') 0.005).
Proof.
  split; [reflexivity |].
  exact (step_is_euler_when_level (dynamics_with_dt 0.005) 0 1 0 zeros3
           (at_rest (from_yaw_pitch_roll 0 0 0)) eq_refl).
Defined.

(** ** The yaw the controller reads *)

(** [math.atan2] inverts the pair (sin, cos) on (-pi, pi]. *)
Lemma atan2_sin_cos (a : R) : - PI < a <= PI -> atan2 (sin a) (cos a) = a.
Proof.
  intros [Hlo Hhi]. pose proof PI_RGT_0 as Hpi.
  unfold atan2.
  destruct (total_order_T (cos a) 0) as [[Hneg | Hzero] | Hpos].
  - (* the left half plane *)
    assert (Hout : a < - (PI / 2) \/ PI / 2 < a).
    { destruct (Rlt_dec a (- (PI / 2))) as [H | H]; [left; exact H |].
      destruct (Rlt_dec (PI / 2) a) as [H' | H']; [right; exact H' |].
      assert (0 <= cos a) by (apply cos_ge_0; lra). lra. }
    destruct (Rlt_dec (sin a) 0) as [Hs | Hs].
    + assert (Ha : a < - (PI / 2)).
      { destruct Hout as [H | H]; [exact H |].
        assert (0 <= sin a) by (apply sin_ge_0; lra). lra. }
      replace (sin a / cos a) with (tan (a + PI)).
      * rewrite atan_tan by lra. ring.
      * unfold tan. rewrite neg_sin, neg_cos. field. lra.
    + assert (Ha : PI / 2 < a).
      { destruct Hout as [H | H]; [| exact H].
        assert (sin a < 0) by (apply sin_lt_0_var; lra). lra. }
      replace (sin a / cos a) with (tan (a - PI)).
      * rewrite atan_tan by lra. ring.
      * unfold tan.
        assert (Es : sin a = - sin (a - PI))
          by (rewrite <- neg_sin; f_equal; ring).
        assert (Ec : cos a = - cos (a - PI))
          by (rewrite <- neg_cos; f_equal; ring).
        rewrite Es, Ec. field. lra.
  - (* the vertical axis *)
    assert (Hax : a = - (PI / 2) \/ a = PI / 2).
    { destruct (Rlt_dec a (- (PI / 2))) as [H | H].
      - assert (cos (- a) < 0) by (apply cos_lt_0; lra).
        rewrite cos_neg in *. lra.
      - destruct (Rlt_dec (PI / 2) a) as [H' | H'].
        + assert (cos a < 0) by (apply cos_lt_0; lra). lra.
        + destruct (Req_dec a (- (PI / 2))) as [E | E]; [left; exact E |].
          destruct (Req_dec a (PI / 2)) as [E' | E']; [right; exact E' |].
          assert (0 < cos a) by (apply cos_gt_0; lra). lra. }
    destruct Hax as [E | E]; subst a.
    + rewrite sin_neg, sin_PI2.
      destruct (total_order_T (- (1)) 0) as [[H | H] | H]; lra.
    + rewrite sin_PI2.
      destruct (total_order_T 1 0) as [[H | H] | H]; lra.
  - (* the right half plane *)
    assert (Hin : - (PI / 2) < a < PI / 2).
    { split.
      - destruct (Rlt_dec (- (PI / 2)) a) as [H | H]; [exact H |].
        assert (cos (- a) <= 0) by (apply cos_le_0; lra).
        rewrite cos_neg in *. lra.
      - destruct (Rlt_dec a (PI / 2)) as [H | H]; [exact H |].
        assert (cos a <= 0) by (apply cos_le_0; lra). lra. }
    change (sin a / cos a) with (tan a). apply atan_tan. exact Hin.
Qed.

Lemma to_yaw_of_yaw (yaw : R) :
  - PI < yaw <= PI -> to_yaw (from_yaw_pitch_roll yaw 0 0) = yaw.
Proof.
  intros Hy.
  unfold to_yaw, from_yaw_pitch_roll, quat, qx, qy, qz, qw.
  cbn [to_storage w0 w1 w2 w3].
  replace (0 / 2) with 0 by field. rewrite sin_0, cos_0.
  set (s := sin (yaw / 2)). set (c := cos (yaw / 2)).
  assert (Hs : sin yaw = 2 * s * c).
  { replace yaw with (2 * (yaw / 2)) at 1 by field. rewrite sin_2a. reflexivity. }
  assert (Hc : cos yaw = c * c - s * s).
  { replace yaw with (2 * (yaw / 2)) at 1 by field. rewrite cos_2a. reflexivity. }
  match goal with
  | |- atan2 ?y ?x = _ =>
      replace y with (sin yaw) by (rewrite Hs; ring);
      replace x with (cos yaw) by (rewrite Hc; ring)
  end.
  apply atan2_sin_cos. exact Hy.
Qed.

(** X19: for a level vehicle of yaw in (-pi, pi] the controller reads that
    yaw back from the orientation, and its desired roll and pitch are the
    commanded horizontal acceleration turned by the yaw and divided by g. *)
Theorem level_yaw_tilt (self : ControllerFull.Controller.t)
        (trajectory : TrajectoryState.t) (state : QuadrotorState.t) (yaw : R) :
  - PI < yaw <= PI ->
  QuadrotorState.orientation state = from_yaw_pitch_roll yaw 0 0 ->
  let a := ControllerFull.Controller.commanded_acceleration self trajectory state in
  to_yaw (QuadrotorState.orientation state) = yaw
  /\ phi_des self trajectory state = (v0 a * sin yaw - v1 a * cos yaw) / g p
  /\ theta_des self trajectory state = (v0 a * cos yaw + v1 a * sin yaw) / g p.
Proof.
  intros Hy Hlevel a.
  assert (E : to_yaw (QuadrotorState.orientation state) = yaw)
    by (rewrite Hlevel; apply to_yaw_of_yaw; exact Hy).
  pose proof g_pos as Hg.
  split; [exact E |].
  unfold phi_des, theta_des. fold a. rewrite E.
  split; field; lra.
Qed.

(** The level vehicle of yaw 0. *)
Lemma level_yaw_tilt_witness :
  (- PI < 0 <= PI
   /\ QuadrotorState.orientation (at_rest (from_yaw_pitch_roll 0 0 0))
      = from_yaw_pitch_roll 0 0 0)
  /\ to_yaw (QuadrotorState.orientation (at_rest (from_yaw_pitch_roll 0 0 0))) = 0
  /\ phi_des default_controller hold_origin (at_rest (from_yaw_pitch_roll 0 0 0))
     = (v0 (ControllerFull.Controller.commanded_acceleration default_controller
              hold_origin (at_rest (from_yaw_pitch_roll 0 0 0))) * sin 0
        - v1 (ControllerFull.Controller.commanded_acceleration default_controller
                hold_origin (at_rest (from_yaw_pitch_roll 0 0 0))) * cos 0) / g p
  /\ theta_des default_controller hold_origin (at_rest (from_yaw_pitch_roll 0 0 0))
     = (v0 (ControllerFull.Controller.commanded_acceleration default_controller
              hold_origin (at_rest (from_yaw_pitch_roll 0 0 0))) * cos 0
        + v1 (ControllerFull.Controller.commanded_acceleration default_controller
                hold_origin (at_rest (from_yaw_pitch_roll 0 0 0))) * sin 0) / g p.
Proof.
  assert (H : - PI < 0 <= PI) by (pose proof PI_RGT_0; lra).
  split; [split; [exact H | reflexivity] |].
  exact (level_yaw_tilt default_controller hold_origin
           (at_rest (from_yaw_pitch_roll 0 0 0)) 0 H eq_refl).
Defined.

(** ** The horizontal velocity in the binary64 Euler step *)

Module Float64Motion.
Import Floats.
Import Float64.
Local Open Scope float_scope.
#[local] Set Warnings "-inexact-float".

Lemma finite_Prim2SF (x : float) :
  is_finite x = true -> SFnonfinite (Prim2SF x) = false.
Proof.
  intros H. rewrite <- Float64Facts.nonfinite_Prim2SF. unfold nonfinite.
  rewrite H. reflexivity.
Qed.

(** What is added to a horizontal velocity component: a zero of some sign,
    as long as [u1 / mass] is finite. *)
Lemma horizontal_increment (q : float) :
  is_finite q = true ->
  exists s, Prim2SF ((q * 0 - 0) * 0.005) = S754_zero s.
Proof.
  intros H. apply finite_Prim2SF in H.
  rewrite mul_spec, sub_spec, mul_spec.
  change (Prim2SF 0) with (S754_zero false).
  assert (Hdt : exists m e, Prim2SF 0.005 = S754_finite false m e)
    by (do 2 eexists; vm_compute; reflexivity).
  destruct Hdt as (m & e & ->).
  destruct (Prim2SF q) as [s | s | | s mq eq]; try discriminate;
    destruct s; eexists; reflexivity.
Qed.

(** Adding a zero of either sign gives a value that compares equal. *)
Lemma add_zero_eqb (v a : float) (s : bool) :
  is_nan v = false -> Prim2SF a = S754_zero s -> (v + a =? v) = true.
Proof.
  unfold is_nan. rewrite !FloatAxioms.eqb_spec, add_spec. intros Hv ->.
  destruct (Prim2SF v) as [sv | sv | | sv mv ev].
  - destruct sv, s; reflexivity.
  - destruct sv; reflexivity.
  - discriminate.
  - cbn [SF64add SFadd]. apply Float64Facts.SFeqb_finite_refl.
Qed.

(** X9: in binary64, for every state and thrust/torque command whose
    [u1 / mass] is finite, the Euler step returns a state whose horizontal
    velocity components compare equal to those of the input (NaN components
    apart): what is added to them is a zero.  No attitude and no finite
    command accelerates the vehicle sideways. *)
Theorem step64_keeps_horizontal_velocity (inertia_inv : mat3) (t u1 : float)
        (u2 : vec3) (state : QuadrotorState) :
  is_finite (u1 / mass p) = true ->
  is_nan (v0 (velocity state)) = false ->
  is_nan (v1 (velocity state)) = false ->
  exists s',
    step inertia_inv t (of_thrust_torque u1 u2) state = Ok s'
    /\ (v0 (velocity s') =? v0 (velocity state)) = true
    /\ (v1 (velocity s') =? v1 (velocity state)) = true.
Proof.
  intros Hq Hx Hy.
  rewrite Float64Facts.step64_thrust_torque. cbv zeta.
  eexists; split; [reflexivity |].
  cbn [velocity vadd vmuls vsub vscale v0 v1].
  destruct (horizontal_increment _ Hq) as (s & Hs).
  split; eapply add_zero_eqb; eassumption.
Qed.

(** The vehicle at rest under "no thrust, no torque". *)
Lemma step64_keeps_horizontal_velocity_witness :
  (is_finite (0 / mass p) = true
   /\ is_nan (v0 (velocity nan_state)) = false
   /\ is_nan (v1 (velocity nan_state)) = false)
  /\ exists s',
       step inertia_inv_diag 0 (of_thrust_torque 0 (mkV3 0 0 0)) nan_state = Ok s'
       /\ (v0 (velocity s') =? v0 (velocity nan_state)) = true
       /\ (v1 (velocity s') =? v1 (velocity nan_state)) = true.
Proof.
  split; [repeat split; reflexivity |].
  exact (step64_keeps_horizontal_velocity inertia_inv_diag 0 0 (mkV3 0 0 0) nan_state
           eq_refl eq_refl eq_refl).
Defined.

(** With [u1 / mass] infinite or NaN the horizontal velocity is lost. *)
Lemma step64_nonfinite_thrust (inertia_inv : mat3) (t u1 : float)
      (u2 : vec3) (state : QuadrotorState) :
  is_finite (u1 / mass p) = false ->
  exists s',
    step inertia_inv t (of_thrust_torque u1 u2) state = Ok s'
    /\ is_nan (v0 (velocity s')) = true
    /\ is_nan (v1 (velocity s')) = true.
Proof.
  intros Hq.
  assert (Hn : SFnonfinite (Prim2SF (u1 / mass p)) = true).
  { rewrite <- Float64Facts.nonfinite_Prim2SF. unfold nonfinite. rewrite Hq. reflexivity. }
  rewrite Float64Facts.step64_thrust_torque. cbv zeta.
  eexists; split; [reflexivity |].
  cbn [velocity vadd vmuls vsub vscale v0 v1].
  assert (H : forall v, is_nan (v + (u1 / mass p * 0 - 0) * 0.005) = true).
  { intros v. unfold is_nan.
    rewrite FloatAxioms.eqb_spec, add_spec, mul_spec, sub_spec, mul_spec.
    change (Prim2SF 0) with (S754_zero false).
    destruct (Prim2SF (u1 / mass p)) as [s | s | | s mq eq]; try discriminate;
      destruct (Prim2SF v); reflexivity. }
  split; apply H.
Qed.

End Float64Motion.
